(** * Passenger-presence estimator of the campaigns view

    A shallow embedding of the numeric helpers of the campaigns page
    ([normalCDF], [lognormCDF], [arrivalsExitLogNormal],
    [passengersLogNormal], [calculatePassengerDistribution] and
    [calculatePassengerGridData]) together with the properties stated for
    them.

    Modelling conventions.
    - A JavaScript [number] that carries a passenger quantity or a
      probability is a real number ([R]): arithmetic is exact, so IEEE-754
      rounding, overflow, underflow and NaN are outside the model.
      [Math.exp], [Math.log], [Math.sqrt] and [Math.abs] are [exp], [ln],
      [sqrt] and [Rabs].  The exact values order like the code's doubles
      where a result is decided by the guards, and at the arguments the
      program passes (default shape parameters, whole seconds, the windows
      of the callers); module [Double] evaluates the same four helpers in
      binary64 where the two disagree.
    - A [number] that carries a Unix time is an integer ([Z]):
      [dayjs(..).unix()] yields whole seconds and the code only adds,
      subtracts and takes remainders of them.  [%] is the truncating
      remainder [Z.rem]; [Math.floor (a / b)] and [Math.ceil (a / b)] on
      integers are floor and ceiling division.
    - [Math.round x] is [floor (x + 1/2)], an integer.
    - The date library is external: parsing and formatting are parameters
      of the development.  Parsing yields an integer for every string, so
      date strings that the library cannot read are outside the model. *)

From Stdlib Require Import Reals Lra Lia ZArith List Ascii String Sorted.
From Stdlib Require PrimFloat.
From stdpp Require Import base strings gmap pretty.
From Equations Require Import Equations.

Local Open Scope R_scope.

(** ** JavaScript primitives *)

Module Js.

(** [Math.round]: nearest integer, ties towards plus infinity. *)
Definition Math_round (x : R) : Z := Zfloor (x + 1 / 2).

(** [x || d] for a nullable number [x] and a number [d]: [null] and [0]
    are falsy. *)
Definition or_num (x : option R) (d : R) : R :=
  match x with
  | None => d
  | Some v => if Req_dec_T v 0 then d else v
  end.

(** Truthiness of a nullable string: [null] and the empty string are
    falsy. *)
Definition truthy_str (s : option string) : bool :=
  match s with
  | None => false
  | Some EmptyString => false
  | Some _ => true
  end.

(** [a || b] for nullable strings. *)
Definition or_str (a b : option string) : option string :=
  if truthy_str a then a else b.

(** [String.prototype.toLowerCase] on the ASCII letters.  Bytes outside
    [A-Z] are kept, which agrees with JavaScript on every string whose
    lower-casing is compared against an ASCII word made of the letters
    used below. *)
Definition lower_ascii (c : ascii) : ascii :=
  let n := nat_of_ascii c in
  if (Nat.leb 65 n && Nat.leb n 90)%bool then ascii_of_nat (n + 32) else c.

Fixpoint toLowerCase (s : string) : string :=
  match s with
  | EmptyString => EmptyString
  | String c r => String (lower_ascii c) (toLowerCase r)
  end.

(** [a === b] where [a] may be [undefined] and [b] is a string literal. *)
Definition str_eq (a : option string) (b : string) : bool :=
  match a with
  | None => false
  | Some s => String.eqb s b
  end.

(** [Math.min(...l)] and [Math.max(...l)] on a list of integers.  On
    the empty list JavaScript yields an infinity; the only caller
    returns before that, and the model yields [0] there. *)
Definition Math_min (l : list Z) : Z :=
  match l with
  | [] => 0%Z
  | x :: r => fold_left Z.min r x
  end.
Definition Math_max (l : list Z) : Z :=
  match l with
  | [] => 0%Z
  | x :: r => fold_left Z.max r x
  end.

(** [Math.floor (a / b)] and [Math.ceil (a / b)] for integers [a] and a
    positive integer [b]. *)
Definition floor_div (a b : Z) : Z := (a / b)%Z.
Definition ceil_div (a b : Z) : Z := (- ((- a) / b))%Z.

End Js.

(** ** The log-normal helpers *)

(** Standard normal CDF through the five-term approximation of the error
    function. *)
Definition normalCDF (x : R) : R :=
  let a1 := 0.254829592 in
  let a2 := -0.284496736 in
  let a3 := 1.421413741 in
  let a4 := -1.453152027 in
  let a5 := 1.061405429 in
  let p := 0.3275911 in
  let sign := if Rlt_dec x 0 then -1 else 1 in
  let absX := Rabs x / sqrt 2 in
  let t := 1.0 / (1.0 + p * absX) in
  let y := 1.0 - (((((a5 * t + a4) * t) + a3) * t + a2) * t + a1) * t
                 * exp (- absX * absX) in
  0.5 * (1.0 + sign * y).

(** Log-normal CDF with shape [sigma] and median [scale].  In exact
    arithmetic [ln] and the division are total; the statements about the
    code use them for positive [x], [scale] and [sigma] only, and
    [Double.lognormCDF] shows what the doubles do beyond that. *)
Definition lognormCDF (x sigma scale : R) : R :=
  if Rle_dec x 0 then 0
  else normalCDF ((ln x - ln scale) / sigma).

(** Passengers still in the airport after an arrival. *)
Definition arrivalsExitLogNormal
    (t N tLand tEnd sigma medianFraction : R) : R :=
  if Rle_dec t tLand then N
  else if Rge_dec t tEnd then 0
  else
    let elapsed := t - tLand in
    let totalWindow := tEnd - tLand in
    let scaled := elapsed / totalWindow in
    let scale := medianFraction in
    let cumProb := lognormCDF scaled sigma scale in
    let maxProb := lognormCDF 1.0 sigma scale in
    let cumulativeExits := N * (cumProb / maxProb) in
    N - cumulativeExits.

(** Passengers who have reached the airport before a departure. *)
Definition passengersLogNormal
    (t N tOpen tDep sigma medianFraction : R) : R :=
  if Rle_dec t tOpen then 0
  else if Rge_dec t tDep then N
  else
    let elapsed := t - tOpen in
    let totalWindow := tDep - tOpen in
    let scaled := elapsed / totalWindow in
    let scale := medianFraction in
    let cumProb := lognormCDF scaled sigma scale in
    let maxProb := lognormCDF 1.0 sigma scale in
    N * (cumProb / maxProb).

(** Default values of the optional parameters. *)
Definition arrival_sigma : R := 0.3.
Definition arrival_medianFraction : R := 0.3.
Definition departure_sigma : R := 0.5.
Definition departure_medianFraction : R := 0.7.

(** ** The log-normal helpers in double precision *)

(** The same four helpers on binary64 numbers, operation by operation.
    Addition, subtraction, multiplication, division, square root, absolute
    value and the comparisons are the IEEE-754 ones ([NaN] compares false,
    as in JavaScript); [Math.exp] and [Math.log], which the language leaves
    to the implementation, come from a math library [M]. *)
Module Double.
Import PrimFloat.
#[local] Set Warnings "-inexact-float".
Local Open Scope float_scope.

Record MathLib : Type := {
  Math_exp : float -> float;
  Math_log : float -> float
}.

Definition normalCDF (M : MathLib) (x : float) : float :=
  let a1 := 0.254829592 in
  let a2 := -0.284496736 in
  let a3 := 1.421413741 in
  let a4 := -1.453152027 in
  let a5 := 1.061405429 in
  let p := 0.3275911 in
  let sign := if x <? 0 then -1 else 1 in
  let absX := abs x / sqrt 2 in
  let t := 1.0 / (1.0 + p * absX) in
  let y := 1.0 - (((((a5 * t + a4) * t) + a3) * t + a2) * t + a1) * t
                 * Math_exp M (- absX * absX) in
  0.5 * (1.0 + sign * y).

Definition lognormCDF (M : MathLib) (x sigma scale : float) : float :=
  if x <=? 0 then 0
  else normalCDF M ((Math_log M x - Math_log M scale) / sigma).

Definition arrivalsExitLogNormal (M : MathLib)
    (t N tLand tEnd sigma medianFraction : float) : float :=
  if t <=? tLand then N
  else if tEnd <=? t then 0
  else
    let elapsed := t - tLand in
    let totalWindow := tEnd - tLand in
    let scaled := elapsed / totalWindow in
    let scale := medianFraction in
    let cumProb := lognormCDF M scaled sigma scale in
    let maxProb := lognormCDF M 1.0 sigma scale in
    let cumulativeExits := N * (cumProb / maxProb) in
    N - cumulativeExits.

Definition passengersLogNormal (M : MathLib)
    (t N tOpen tDep sigma medianFraction : float) : float :=
  if t <=? tOpen then 0
  else if tDep <=? t then N
  else
    let elapsed := t - tOpen in
    let totalWindow := tDep - tOpen in
    let scaled := elapsed / totalWindow in
    let scale := medianFraction in
    let cumProb := lognormCDF M scaled sigma scale in
    let maxProb := lognormCDF M 1.0 sigma scale in
    N * (cumProb / maxProb).

(** What the evaluations below need of a math library: [Math.exp]
    underflows to [+0] below [-746] (there [e^x] is less than half the
    smallest positive double), and [Math.log] returns the correctly
    rounded logarithm at [1], [2], [1/2] and [1/4]. *)
Definition underflows (M : MathLib) : Prop :=
  forall x, (x <? -746) = true -> Math_exp M x = 0.

Definition log_table (M : MathLib) : Prop :=
  Math_log M 1 = 0
  /\ Math_log M 2 = 0.6931471805599453
  /\ Math_log M 0.5 = -0.6931471805599453
  /\ Math_log M 0.25 = -1.3862943611198906.

(** A math library given by exactly these values; it answers [NaN]
    anywhere else. *)
Definition table_exp (x : float) : float :=
  if x <? -746 then 0 else nan.

Definition table_log (x : float) : float :=
  if x =? 1 then 0
  else if x =? 2 then 0.6931471805599453
  else if x =? 0.5 then -0.6931471805599453
  else if x =? 0.25 then -1.3862943611198906
  else nan.

Definition table_math : MathLib :=
  {| Math_exp := table_exp; Math_log := table_log |}.

End Double.

(** ** Flights, series points and grid rows *)

(** The fields of a campaign flight that the estimator reads.  The type
    and the two timestamps may be missing at run time (the code guards
    them with [?.] and [||]). *)
Record CampaignFlight : Type := mkFlight {
  flight_number : string;
  flight_type : option string;
  scheduled_time_utc : option string;
  actual_time_utc : option string;
  avg_pax_est : option R
}.

Record PassengerTimePoint : Type := mkPoint {
  flight_id : string;
  point_flight_type : option string;
  time : Z;
  time_formatted : string;
  passenger_count : Z
}.

(** A grid row.  The JavaScript object has the fixed properties [time],
    [time_formatted] and [total] and one dynamic property per flight; the
    dynamic keys all start with [flight_], so they never collide with the
    fixed ones and are kept in a map of their own. *)
Record PassengerGridRow : Type := mkRow {
  row_time : Z;
  row_time_formatted : string;
  row_cells : gmap string Z;
  total : Z
}.

(** The date library: [dayjs(s).unix()] and
    [dayjs.unix(t).utc().format('HH:mm')]. *)
Class DateLib : Type := {
  dayjs_unix : string -> Z;
  dayjs_format_HHmm : Z -> string
}.

(** The time constants, in seconds.  The grid function names its own
    copies [FIVE_MINUTES], [THREE_HOURS] and [NINETY_MINS]; they have the
    same values and share the definitions below. *)
Definition SECONDS_IN_HOUR : Z := 3600.
Definition THREE_HOURS_IN_SECONDS : Z := 3 * SECONDS_IN_HOUR.
Definition NINETY_MINS_IN_SECONDS : Z := 90 * 60.
Definition FIVE_MINUTES_IN_SECONDS : Z := 300.
Definition TWO_HOURS : Z := 2 * 3600.

(** [for (let t = start; t <= tEnd; t += 300) results.push(body t)]: the
    list of pushed values, in order. *)
Equations? for_each_5min {A : Type} (body : Z -> A) (t tEnd : Z) : list A
  by wf (Z.to_nat (tEnd - t + 1)) lt :=
  for_each_5min body t tEnd with Z_le_dec t tEnd => {
    | left _ := body t :: for_each_5min body (t + FIVE_MINUTES_IN_SECONDS) tEnd;
    | right _ := [] }.
Proof. unfold FIVE_MINUTES_IN_SECONDS. lia. Qed.

(** [flight.avg_pax_est || 100]. *)
Definition pax_or_default (flight : CampaignFlight) : R :=
  Js.or_num (avg_pax_est flight) 100.

(** [flight.flight_type?.toLowerCase()]. *)
Definition lowered_type (flight : CampaignFlight) : option string :=
  option_map Js.toLowerCase (flight_type flight).

Definition is_arrival_type (fType : option string) : bool :=
  Js.str_eq fType "arrival" || Js.str_eq fType "arr".

Definition is_departure_type (fType : option string) : bool :=
  Js.str_eq fType "departure" || Js.str_eq fType "dep".

(** The grid column of the flight at position [index]: [`flight_${index}`]. *)
Definition column_key (index : nat) : string := "flight_" +:+ pretty index.

(** Start of the departure window: three hours before departure, with the
    remainder of the hour removed. *)
Definition departure_open (tDep : Z) : Z :=
  let rawStart := (tDep - THREE_HOURS_IN_SECONDS)%Z in
  (rawStart - Z.rem rawStart SECONDS_IN_HOUR)%Z.

Section Estimator.
Context `{DateLib}.

Definition point_at (flight : CampaignFlight) (t : Z) (count : R)
  : PassengerTimePoint :=
  {| flight_id := flight_number flight;
     point_flight_type := flight_type flight;
     time := t;
     time_formatted := dayjs_format_HHmm t;
     passenger_count := Js.Math_round count |}.

(** The per-flight series. *)
Definition calculatePassengerDistribution (flight : CampaignFlight)
  : list PassengerTimePoint :=
  let timeStr := Js.or_str (actual_time_utc flight) (scheduled_time_utc flight) in
  match timeStr with
  | None | Some EmptyString => []
  | Some s =>
    let tActual := dayjs_unix s in
    let N := pax_or_default flight in
    let fType := lowered_type flight in
    if is_arrival_type fType then
      let tLand := tActual in
      let tStartSnapped :=
        (Js.ceil_div tLand FIVE_MINUTES_IN_SECONDS * FIVE_MINUTES_IN_SECONDS)%Z in
      let tEnd := (tLand + NINETY_MINS_IN_SECONDS)%Z in
      for_each_5min
        (fun t =>
           let currentRemaining :=
             arrivalsExitLogNormal (IZR t) N (IZR tLand) (IZR tEnd)
               arrival_sigma arrival_medianFraction in
           point_at flight t currentRemaining)
        tStartSnapped tEnd
    else if is_departure_type fType then
      let tDep := tActual in
      let tOpenSnapped := departure_open tDep in
      let results :=
        for_each_5min
          (fun t =>
             let passengerCount :=
               passengersLogNormal (IZR t) N (IZR tOpenSnapped) (IZR tDep)
                 departure_sigma departure_medianFraction in
             point_at flight t passengerCount)
          tOpenSnapped tDep in
      let lastTime :=
        match last results with Some p => time p | None => 0%Z end in
      if (lastTime <? tDep)%Z then results ++ [point_at flight tDep N]
      else results
    else []
  end.

(** Per-flight data of the grid. *)
Record FlightData : Type := mkFlightData {
  fd_flight : CampaignFlight;
  fd_index : nat;
  columnKey : string;
  tActual : Z;
  isArrival : bool;
  fd_N : R;
  windowStart : Z;
  windowEnd : Z
}.

Definition flight_data (index : nat) (f : CampaignFlight) : FlightData :=
  let timeStr := Js.or_str (actual_time_utc f) (scheduled_time_utc f) in
  let tActual :=
    match timeStr with
    | None | Some EmptyString => 0%Z
    | Some s => dayjs_unix s
    end in
  let fType := lowered_type f in
  let N := pax_or_default f in
  let isArrival := is_arrival_type fType in
  {| fd_flight := f;
     fd_index := index;
     columnKey := column_key index;
     tActual := tActual;
     isArrival := isArrival;
     fd_N := N;
     windowStart :=
       if isArrival then tActual else departure_open tActual;
     windowEnd :=
       if isArrival then (tActual + NINETY_MINS_IN_SECONDS)%Z else tActual |}.

(** The value of [passengers] for flight [fd] at the grid instant [t]. *)
Definition passengers_at (fd : FlightData) (t : Z) : R :=
  if isArrival fd then
    let tLand := tActual fd in
    if (t <? tLand)%Z then 0
    else
      let tEnd := (tLand + NINETY_MINS_IN_SECONDS)%Z in
      arrivalsExitLogNormal (IZR t) (fd_N fd) (IZR tLand) (IZR tEnd)
        arrival_sigma arrival_medianFraction
  else
    let tDep := tActual fd in
    if (tDep <? t)%Z then 0
    else
      let tOpen := departure_open tDep in
      passengersLogNormal (IZR t) (fd_N fd) (IZR tOpen) (IZR tDep)
        departure_sigma departure_medianFraction.

(** One pass of the inner loop: the cells written so far and the running
    total. *)
Definition add_flight (t : Z) (acc : gmap string Z * Z) (fd : FlightData)
  : gmap string Z * Z :=
  let roundedPassengers := Js.Math_round (passengers_at fd t) in
  (<[columnKey fd := roundedPassengers]> (fst acc),
   (snd acc + roundedPassengers)%Z).

Definition grid_row (flightData : list FlightData) (t : Z) : PassengerGridRow :=
  let acc := fold_left (add_flight t) flightData (∅, 0%Z) in
  {| row_time := t;
     row_time_formatted := dayjs_format_HHmm t;
     row_cells := fst acc;
     total := snd acc |}.

(** The multi-flight grid. *)
Definition calculatePassengerGridData (flights : list CampaignFlight)
  : list PassengerGridRow :=
  match flights with
  | [] => []
  | _ :: _ =>
    let flightData := imap flight_data flights in
    let minTime := Js.Math_min (map windowStart flightData) in
    let maxTime := (Js.Math_max (map windowEnd flightData) + TWO_HOURS)%Z in
    let startTime :=
      (Js.floor_div minTime FIVE_MINUTES_IN_SECONDS * FIVE_MINUTES_IN_SECONDS)%Z in
    for_each_5min (grid_row flightData) startTime maxTime
  end.

(** The points pushed by the stepping loop of a departure at [tDep]. *)
Definition departure_steps (flight : CampaignFlight) (tDep : Z)
  : list PassengerTimePoint :=
  for_each_5min
    (fun t =>
       point_at flight t
         (passengersLogNormal (IZR t) (pax_or_default flight)
            (IZR (departure_open tDep)) (IZR tDep)
            departure_sigma departure_medianFraction))
    (departure_open tDep) tDep.

(** The first and the last instant of the grid ([startTime] and
    [maxTime]). *)
Definition grid_startTime (flights : list CampaignFlight) : Z :=
  (Js.floor_div (Js.Math_min (map windowStart (imap flight_data flights)))
     FIVE_MINUTES_IN_SECONDS * FIVE_MINUTES_IN_SECONDS)%Z.

Definition grid_maxTime (flights : list CampaignFlight) : Z :=
  (Js.Math_max (map windowEnd (imap flight_data flights)) + TWO_HOURS)%Z.

End Estimator.

(** ** Reading a grid row *)

(** [row[`flight_${index}`]], with [0] for a missing property. *)
Definition cell (row : PassengerGridRow) (index : nat) : Z :=
  default 0%Z (row_cells row !! column_key index).

(** The sum of the per-flight columns of a row of a grid of [n] flights. *)
Definition per_flight_sum (row : PassengerGridRow) (n : nat) : Z :=
  foldr Z.add 0%Z (map (cell row) (seq 0 n)).

(** The flight record with another passenger estimate. *)
Definition with_pax (f : CampaignFlight) (pax : option R) : CampaignFlight :=
  {| flight_number := flight_number f;
     flight_type := flight_type f;
     scheduled_time_utc := scheduled_time_utc f;
     actual_time_utc := actual_time_utc f;
     avg_pax_est := pax |}.

(** ** The chart series *)

Record NivoDataPoint : Type := mkNivoPoint {
  nivo_x : string;
  nivo_y : Z
}.

Record NivoSerie : Type := mkNivoSerie {
  serie_id : string;
  serie_data : list NivoDataPoint
}.

(** One series per flight, one point per grid row; a missing or zero cell
    reads as [0] ([row[columnKey] || 0]). *)
Definition transformToNivoData
    (gridData : list PassengerGridRow) (flights : list CampaignFlight)
  : list NivoSerie :=
  match gridData, flights with
  | [], _ => []
  | _, [] => []
  | _ :: _, _ :: _ =>
    imap (fun index flight =>
            {| serie_id := flight_number flight;
               serie_data :=
                 map (fun row => {| nivo_x := row_time_formatted row;
                                    nivo_y := cell row index |})
                     gridData |})
         flights
  end.

(** ** The summary line of the selection *)

(** [Math.round (selectedFlights.reduce ((sum, f) => sum + (f.avg_pax_est
    || 0), 0))], the "Total Est. Passengers" shown above the chart. *)
Definition selected_total_estimate (flights : list CampaignFlight) : Z :=
  Js.Math_round
    (fold_left (fun sum f => sum + Js.or_num (avg_pax_est f) 0) flights 0).

(** ** Pending edits of the campaign table *)

(** The update [prev => ...] that [onCellValueChanged] passes to
    [setPendingChanges]: the edited value is merged into the pending
    changes of the campaign, which are created when the campaign has none.
    The pending changes are a [Map] from the campaign id to an object with
    the edited fields; the order of the [Map] is not modelled. *)
Definition merge_pending_change
    (prev : gmap Z (gmap string (option string)))
    (campaignId : Z) (field : string) (newValue : option string)
  : gmap Z (gmap string (option string)) :=
  let existing := default ∅ (prev !! campaignId) in
  <[campaignId := <[field := newValue]> existing]> prev.

(** The handler.  [data] is the campaign id of the edited row when the
    event carries row data, [field] the column's field when it has one;
    [if (!data || !colDef.field) return] leaves the pending changes
    untouched (an empty field name is falsy). *)
Definition onCellValueChanged
    (prev : gmap Z (gmap string (option string)))
    (data : option Z) (field : option string) (newValue : option string)
  : gmap Z (gmap string (option string)) :=
  match data with
  | None => prev
  | Some campaignId =>
    match field with
    | None | Some EmptyString => prev
    | Some f => merge_pending_change prev campaignId f newValue
    end
  end.

(** ** The stepping loop of an arrival *)

(** The first instant of the arrival loop: the five-minute boundary at or
    after landing ([tStartSnapped]). *)
Definition arrival_start (tLand : Z) : Z :=
  (Js.ceil_div tLand FIVE_MINUTES_IN_SECONDS * FIVE_MINUTES_IN_SECONDS)%Z.

Section ArrivalLoop.
Context `{DateLib}.

(** The points pushed by the loop of an arrival landing at [tLand]. *)
Definition arrival_steps (flight : CampaignFlight) (tLand : Z)
  : list PassengerTimePoint :=
  for_each_5min
    (fun t =>
       point_at flight t
         (arrivalsExitLogNormal (IZR t) (pax_or_default flight) (IZR tLand)
            (IZR (tLand + NINETY_MINS_IN_SECONDS))
            arrival_sigma arrival_medianFraction))
    (arrival_start tLand) (tLand + NINETY_MINS_IN_SECONDS).

End ArrivalLoop.

(** ** The instants of a five-minute loop *)

(** How many times the loop from [start] to [stop] runs. *)
Definition step_count (start stop : Z) : nat :=
  Z.to_nat ((stop - start) / FIVE_MINUTES_IN_SECONDS + 1).

(** The first [n] instants from [start], five minutes apart. *)
Definition step_instants (start : Z) (n : nat) : list Z :=
  map (fun k => (start + FIVE_MINUTES_IN_SECONDS * Z.of_nat k)%Z) (seq 0 n).

(** ** Sample data *)

(** A date library that knows two timestamps and prints the UTC clock. *)
Definition sample_unix (s : string) : Z :=
  if String.eqb s "2024-01-01T10:00:00Z" then 1704103200%Z
  else if String.eqb s "2024-01-01T12:00:00Z" then 1704110400%Z
  else 0%Z.

Definition two_digits (n : Z) : string :=
  (if (n <? 10)%Z then "0" else "") +:+ pretty n.

Definition utc_HHmm (t : Z) : string :=
  two_digits ((t mod 86400) / 3600) +:+ ":" +:+ two_digits ((t mod 3600) / 60).

Definition sample_dates : DateLib :=
  {| dayjs_unix := sample_unix; dayjs_format_HHmm := utc_HHmm |}.

Definition noon : Z := 1704110400.

(** A departure at noon with no passenger estimate. *)
Definition sample_departure : CampaignFlight :=
  {| flight_number := "LO281";
     flight_type := Some "departure";
     scheduled_time_utc := Some "2024-01-01T12:00:00Z";
     actual_time_utc := None;
     avg_pax_est := None |}.

(** An arrival at ten with eighty passengers. *)
Definition sample_arrival : CampaignFlight :=
  {| flight_number := "LO282";
     flight_type := Some "Arrival";
     scheduled_time_utc := Some "2024-01-01T09:50:00Z";
     actual_time_utc := Some "2024-01-01T10:00:00Z";
     avg_pax_est := Some 80 |}.

(** A departure at noon with a fractional passenger estimate. *)
Definition sample_fractional : CampaignFlight :=
  with_pax sample_departure (Some 99.5).

(** A departure at noon whose passenger estimate is zero. *)
Definition sample_zero_pax : CampaignFlight :=
  with_pax sample_departure (Some 0).

(** A flight at noon whose type is neither an arrival nor a departure. *)
Definition sample_cargo : CampaignFlight :=
  {| flight_number := "LO283";
     flight_type := Some "cargo";
     scheduled_time_utc := Some "2024-01-01T12:00:00Z";
     actual_time_utc := None;
     avg_pax_est := None |}.

(** A departure with neither an actual nor a scheduled time. *)
Definition sample_untimed : CampaignFlight :=
  {| flight_number := "LO284";
     flight_type := Some "departure";
     scheduled_time_utc := None;
     actual_time_utc := None;
     avg_pax_est := None |}.

(** ** Auxiliary definitions for the analysis of [normalCDF] *)

(** The polynomial of the error-function approximation, in Horner form as
    [normalCDF] evaluates it. *)
Definition erfc_poly (t : R) : R :=
  (((((1.061405429 * t + -1.453152027) * t) + 1.421413741) * t
    + -0.284496736) * t + 0.254829592) * t.

(** The divided difference [(erfc_poly v - erfc_poly u) / (v - u)], written
    in [s = u + v] and [e = (u - v)^2]. *)
Definition erfc_poly_slope (u v : R) : R :=
  let s := u + v in
  let e := (u - v) * (u - v) in
  1.061405429 / 16 * (e * e)
  + e * (1.421413741 / 4 + -1.453152027 / 2 * s
         + 5 * 1.061405429 / 8 * (s * s))
  + (0.254829592 + -0.284496736 * s + 3 * 1.421413741 / 4 * (s * s)
     + -1.453152027 / 2 * (s * s * s)
     + 5 * 1.061405429 / 16 * (s * s * s * s)).

(** The approximated complementary error function at [z >= 0]. *)
Definition erfc_term (z : R) : R :=
  erfc_poly (1 / (1 + 0.3275911 * z)) * exp (- z * z).

(** * Properties *)

(** ** Rounding *)

Lemma Math_round_IZR (n : Z) : Js.Math_round (IZR n) = n.
Proof. unfold Js.Math_round. apply Zfloor_eq. lra. Qed.

Lemma Math_round_mono (x y : R) :
  x <= y -> (Js.Math_round x <= Js.Math_round y)%Z.
Proof. intros Hxy. unfold Js.Math_round. apply Zfloor_le. lra. Qed.

Lemma Math_round_nonneg (x : R) : 0 <= x -> (0 <= Js.Math_round x)%Z.
Proof.
  intros Hx. unfold Js.Math_round. apply Zfloor_lub. simpl. lra.
Qed.

Lemma Math_round_0 : Js.Math_round 0 = 0%Z.
Proof. exact (Math_round_IZR 0). Qed.

(** ** The error-function polynomial is increasing *)

Lemma erfc_poly_diff (u v : R) :
  erfc_poly v - erfc_poly u = (v - u) * erfc_poly_slope u v.
Proof. unfold erfc_poly, erfc_poly_slope. field. Qed.

Lemma quad_pos (a b c x : R) :
  0 < a -> b * b < 4 * a * c -> 0 < a * (x * x) + b * x + c.
Proof.
  intros Ha Hd.
  pose proof (Rle_0_sqr (2 * a * x + b)) as Hs. unfold Rsqr in Hs.
  assert (Hp : 0 < (4 * a) * (a * (x * x) + b * x + c)) by nra.
  apply (Rmult_lt_reg_l (4 * a)); [lra | rewrite Rmult_0_r; exact Hp].
Qed.

Lemma erfc_poly_slope_pos (u v : R) : 0 < erfc_poly_slope u v.
Proof.
  unfold erfc_poly_slope.
  set (s := u + v). set (e := (u - v) * (u - v)).
  assert (He : 0 <= e) by (unfold e; apply Rle_0_sqr).
  assert (H1 : 0 < 5 * 1.061405429 / 8 * (s * s) + -1.453152027 / 2 * s
                   + 1.421413741 / 4)
    by (apply quad_pos; lra).
  assert (H2 : 0 < (5 * 1.061405429 / 16) * (s * s) + (-1.453152027 / 2) * s
                   + (3 * 1.421413741 / 4 - 2 / 3))
    by (apply quad_pos; lra).
  assert (H3 : 0 < 2 / 3 * (s * s) + -0.284496736 * s + 0.254829592)
    by (apply quad_pos; lra).
  pose proof (Rle_0_sqr s) as Hss; unfold Rsqr in Hss.
  pose proof (Rle_0_sqr e) as Hee; unfold Rsqr in Hee.
  assert (0 <= e * (5 * 1.061405429 / 8 * (s * s) + -1.453152027 / 2 * s
                    + 1.421413741 / 4))
    by (apply Rmult_le_pos; lra).
  assert (0 <= (s * s) * ((5 * 1.061405429 / 16) * (s * s)
                          + (-1.453152027 / 2) * s
                          + (3 * 1.421413741 / 4 - 2 / 3)))
    by (apply Rmult_le_pos; lra).
  nra.
Qed.

Lemma erfc_poly_lt (u v : R) : u < v -> erfc_poly u < erfc_poly v.
Proof.
  intros Huv. pose proof (erfc_poly_diff u v) as E.
  assert (0 < (v - u) * erfc_poly_slope u v)
    by (apply Rmult_lt_0_compat; [lra | apply erfc_poly_slope_pos]).
  lra.
Qed.

Lemma erfc_poly_le (u v : R) : u <= v -> erfc_poly u <= erfc_poly v.
Proof.
  intros [Hlt | ->]; [left; now apply erfc_poly_lt | right; reflexivity].
Qed.

Lemma erfc_poly_0 : erfc_poly 0 = 0.
Proof. unfold erfc_poly. lra. Qed.

Lemma erfc_poly_1 : erfc_poly 1 < 1.
Proof. unfold erfc_poly. lra. Qed.

(** ** The approximated complementary error function *)

Lemma erfc_arg_bounds (z : R) :
  0 <= z -> 0 < 1 / (1 + 0.3275911 * z) <= 1.
Proof.
  intros Hz.
  assert (Hd : 1 <= 1 + 0.3275911 * z) by lra.
  split.
  - apply Rdiv_lt_0_compat; lra.
  - apply (Rmult_le_reg_r (1 + 0.3275911 * z)); [lra |].
    unfold Rdiv. rewrite Rmult_assoc, Rinv_l by lra. lra.
Qed.

Lemma erfc_arg_antitone (z1 z2 : R) :
  0 <= z1 -> z1 <= z2 ->
  1 / (1 + 0.3275911 * z2) <= 1 / (1 + 0.3275911 * z1).
Proof.
  intros H1 H12. unfold Rdiv. rewrite !Rmult_1_l.
  apply Rinv_le_contravar; lra.
Qed.

Lemma exp_le (x y : R) : x <= y -> exp x <= exp y.
Proof.
  intros [Hlt | ->]; [left; now apply exp_increasing | right; reflexivity].
Qed.

Lemma erfc_term_pos (z : R) : 0 <= z -> 0 < erfc_term z.
Proof.
  intros Hz. unfold erfc_term.
  apply Rmult_lt_0_compat; [| apply exp_pos].
  rewrite <- erfc_poly_0. apply erfc_poly_lt. now apply erfc_arg_bounds.
Qed.

Lemma erfc_term_lt_1 (z : R) : 0 <= z -> erfc_term z < 1.
Proof.
  intros Hz. unfold erfc_term.
  assert (Hp : erfc_poly (1 / (1 + 0.3275911 * z)) <= erfc_poly 1)
    by (apply erfc_poly_le; now apply erfc_arg_bounds).
  assert (Hp0 : 0 < erfc_poly (1 / (1 + 0.3275911 * z)))
    by (rewrite <- erfc_poly_0; apply erfc_poly_lt; now apply erfc_arg_bounds).
  assert (He : exp (- z * z) <= 1)
    by (rewrite <- exp_0; apply exp_le; nra).
  pose proof (exp_pos (- z * z)) as He0.
  pose proof erfc_poly_1. nra.
Qed.

Lemma erfc_term_antitone (z1 z2 : R) :
  0 <= z1 -> z1 <= z2 -> erfc_term z2 <= erfc_term z1.
Proof.
  intros H1 H12. unfold erfc_term.
  apply Rmult_le_compat.
  - left. rewrite <- erfc_poly_0. apply erfc_poly_lt.
    apply erfc_arg_bounds. lra.
  - left. apply exp_pos.
  - apply erfc_poly_le. now apply erfc_arg_antitone.
  - apply exp_le. nra.
Qed.

(** ** [normalCDF] is positive and non-decreasing *)

Lemma normalCDF_erfc (x : R) :
  normalCDF x =
  if Rlt_dec x 0 then 0.5 * erfc_term (Rabs x / sqrt 2)
  else 0.5 * (2 - erfc_term (Rabs x / sqrt 2)).
Proof.
  unfold normalCDF, erfc_term, erfc_poly. cbv zeta.
  replace (1.0 / (1.0 + 0.3275911 * (Rabs x / sqrt 2)))
    with (1 / (1 + 0.3275911 * (Rabs x / sqrt 2))) by (f_equal; lra).
  set (t := 1 / (1 + 0.3275911 * (Rabs x / sqrt 2))).
  set (E := exp (- (Rabs x / sqrt 2) * (Rabs x / sqrt 2))).
  set (PE := _ * t * E). clearbody PE.
  destruct (Rlt_dec x 0); lra.
Qed.

Lemma sqrt2_pos : 0 < sqrt 2.
Proof. apply sqrt_lt_R0. lra. Qed.

Lemma scaled_abs_nonneg (x : R) : 0 <= Rabs x / sqrt 2.
Proof.
  apply Rmult_le_pos; [apply Rabs_pos |].
  left. apply Rinv_0_lt_compat, sqrt2_pos.
Qed.

Lemma normalCDF_pos (x : R) : 0 < normalCDF x.
Proof.
  rewrite normalCDF_erfc.
  pose proof (erfc_term_pos _ (scaled_abs_nonneg x)).
  pose proof (erfc_term_lt_1 _ (scaled_abs_nonneg x)).
  destruct (Rlt_dec x 0); lra.
Qed.

Lemma normalCDF_mono (x y : R) : x <= y -> normalCDF x <= normalCDF y.
Proof.
  intros Hxy. rewrite !normalCDF_erfc.
  pose proof sqrt2_pos as Hs.
  assert (Hdiv : forall a b, a <= b -> a / sqrt 2 <= b / sqrt 2).
  { intros a b Hab. apply Rmult_le_compat_r; [| exact Hab].
    left. now apply Rinv_0_lt_compat. }
  pose proof (erfc_term_pos _ (scaled_abs_nonneg x)).
  pose proof (erfc_term_lt_1 _ (scaled_abs_nonneg x)).
  pose proof (erfc_term_pos _ (scaled_abs_nonneg y)).
  pose proof (erfc_term_lt_1 _ (scaled_abs_nonneg y)).
  destruct (Rlt_dec x 0) as [Hx | Hx], (Rlt_dec y 0) as [Hy | Hy]; try lra.
  - assert (erfc_term (Rabs x / sqrt 2) <= erfc_term (Rabs y / sqrt 2)).
    { apply erfc_term_antitone; [apply scaled_abs_nonneg |].
      apply Hdiv. rewrite !Rabs_left by lra. lra. }
    lra.
  - assert (erfc_term (Rabs y / sqrt 2) <= erfc_term (Rabs x / sqrt 2)).
    { apply erfc_term_antitone; [apply scaled_abs_nonneg |].
      apply Hdiv. rewrite !Rabs_right by lra. lra. }
    lra.
Qed.

(** ** [lognormCDF] *)

Lemma lognormCDF_nonpos (x sigma scale : R) :
  x <= 0 -> lognormCDF x sigma scale = 0.
Proof. intros Hx. unfold lognormCDF. now destruct (Rle_dec x 0). Qed.

Lemma lognormCDF_positive (x sigma scale : R) :
  0 < x -> lognormCDF x sigma scale = normalCDF ((ln x - ln scale) / sigma).
Proof. intros Hx. unfold lognormCDF. destruct (Rle_dec x 0); [lra | easy]. Qed.

Lemma lognormCDF_nonneg (x sigma scale : R) : 0 <= lognormCDF x sigma scale.
Proof.
  unfold lognormCDF. destruct (Rle_dec x 0); [lra |].
  left. apply normalCDF_pos.
Qed.

Lemma lognormCDF_pos (x sigma scale : R) :
  0 < x -> 0 < lognormCDF x sigma scale.
Proof. intros Hx. rewrite lognormCDF_positive by easy. apply normalCDF_pos. Qed.

Lemma lognormCDF_mono (x y sigma scale : R) :
  0 < sigma -> x <= y -> lognormCDF x sigma scale <= lognormCDF y sigma scale.
Proof.
  intros Hs Hxy. destruct (Rle_dec x 0) as [Hx | Hx].
  - rewrite (lognormCDF_nonpos x) by easy. apply lognormCDF_nonneg.
  - rewrite !lognormCDF_positive by lra. apply normalCDF_mono.
    apply Rmult_le_compat_r; [left; now apply Rinv_0_lt_compat |].
    assert (ln x <= ln y).
    { destruct Hxy as [Hlt | ->]; [| lra].
      left. apply ln_increasing; lra. }
    lra.
Qed.

(** ** The normalised fraction of the window *)

Lemma scaled_bounds (t a b : R) :
  a < t -> t < b -> 0 < (t - a) / (b - a) < 1.
Proof.
  intros Ha Hb. split.
  - apply Rdiv_lt_0_compat; lra.
  - apply (Rmult_lt_reg_r (b - a)); [lra |].
    unfold Rdiv. rewrite Rmult_assoc, Rinv_l by lra. lra.
Qed.

Lemma scaled_mono (t1 t2 a b : R) :
  a < b -> t1 <= t2 -> (t1 - a) / (b - a) <= (t2 - a) / (b - a).
Proof.
  intros Hab H12. apply Rmult_le_compat_r; [| lra].
  left. apply Rinv_0_lt_compat. lra.
Qed.

Lemma fraction_bounds (t a b sigma scale : R) :
  0 < sigma -> a < t -> t < b ->
  0 <= lognormCDF ((t - a) / (b - a)) sigma scale / lognormCDF 1.0 sigma scale <= 1.
Proof.
  intros Hs Ha Hb.
  assert (Hmax : 0 < lognormCDF 1.0 sigma scale) by (apply lognormCDF_pos; lra).
  pose proof (lognormCDF_nonneg ((t - a) / (b - a)) sigma scale) as H0.
  assert (Hle : lognormCDF ((t - a) / (b - a)) sigma scale
                <= lognormCDF 1.0 sigma scale).
  { apply lognormCDF_mono; [easy |].
    pose proof (scaled_bounds t a b Ha Hb). lra. }
  split.
  - apply Rmult_le_pos; [easy | left; now apply Rinv_0_lt_compat].
  - apply (Rmult_le_reg_r (lognormCDF 1.0 sigma scale)); [easy |].
    unfold Rdiv. rewrite Rmult_assoc, Rinv_l by lra. lra.
Qed.

Lemma fraction_mono (t1 t2 a b sigma scale : R) :
  0 < sigma -> a < b -> t1 <= t2 ->
  lognormCDF ((t1 - a) / (b - a)) sigma scale / lognormCDF 1.0 sigma scale
  <= lognormCDF ((t2 - a) / (b - a)) sigma scale / lognormCDF 1.0 sigma scale.
Proof.
  intros Hs Hab H12.
  assert (Hmax : 0 < lognormCDF 1.0 sigma scale) by (apply lognormCDF_pos; lra).
  apply Rmult_le_compat_r; [left; now apply Rinv_0_lt_compat |].
  apply lognormCDF_mono; [easy | now apply scaled_mono].
Qed.

(** ** The two curves: boundary values, range and monotonicity *)

Lemma arrivals_before (t N tLand tEnd sigma mf : R) :
  t <= tLand -> arrivalsExitLogNormal t N tLand tEnd sigma mf = N.
Proof.
  intros Ht. unfold arrivalsExitLogNormal. now destruct (Rle_dec t tLand).
Qed.

Lemma arrivals_after (t N tLand tEnd sigma mf : R) :
  tLand < t -> tEnd <= t -> arrivalsExitLogNormal t N tLand tEnd sigma mf = 0.
Proof.
  intros Hl Ht. unfold arrivalsExitLogNormal.
  destruct (Rle_dec t tLand); [lra |]. destruct (Rge_dec t tEnd); [easy | lra].
Qed.

Lemma arrivals_inside (t N tLand tEnd sigma mf : R) :
  tLand < t -> t < tEnd ->
  arrivalsExitLogNormal t N tLand tEnd sigma mf =
  N - N * (lognormCDF ((t - tLand) / (tEnd - tLand)) sigma mf
           / lognormCDF 1.0 sigma mf).
Proof.
  intros Hl Ht. unfold arrivalsExitLogNormal.
  destruct (Rle_dec t tLand); [lra |]. destruct (Rge_dec t tEnd); [lra | easy].
Qed.

Lemma passengers_before (t N tOpen tDep sigma mf : R) :
  t <= tOpen -> passengersLogNormal t N tOpen tDep sigma mf = 0.
Proof.
  intros Ht. unfold passengersLogNormal. now destruct (Rle_dec t tOpen).
Qed.

Lemma passengers_after (t N tOpen tDep sigma mf : R) :
  tOpen < t -> tDep <= t -> passengersLogNormal t N tOpen tDep sigma mf = N.
Proof.
  intros Hl Ht. unfold passengersLogNormal.
  destruct (Rle_dec t tOpen); [lra |]. destruct (Rge_dec t tDep); [easy | lra].
Qed.

Lemma passengers_inside (t N tOpen tDep sigma mf : R) :
  tOpen < t -> t < tDep ->
  passengersLogNormal t N tOpen tDep sigma mf =
  N * (lognormCDF ((t - tOpen) / (tDep - tOpen)) sigma mf
       / lognormCDF 1.0 sigma mf).
Proof.
  intros Hl Ht. unfold passengersLogNormal.
  destruct (Rle_dec t tOpen); [lra |]. destruct (Rge_dec t tDep); [lra | easy].
Qed.

(** Case analysis on the position of [t] relative to a window. *)
Lemma window_cases (t a b : R) : t <= a \/ (a < t /\ b <= t) \/ (a < t /\ t < b).
Proof. lra. Qed.

Lemma passengers_range (t N tOpen tDep sigma mf : R) :
  0 <= N -> 0 < sigma ->
  0 <= passengersLogNormal t N tOpen tDep sigma mf <= N.
Proof.
  intros HN Hs.
  destruct (window_cases t tOpen tDep) as [Hb | [[Hl Ha] | [Hl Hi]]].
  - rewrite passengers_before by easy. lra.
  - rewrite passengers_after by easy. lra.
  - rewrite passengers_inside by easy.
    pose proof (fraction_bounds t tOpen tDep sigma mf Hs Hl Hi). nra.
Qed.

Lemma arrivals_range (t N tLand tEnd sigma mf : R) :
  0 <= N -> 0 < sigma ->
  0 <= arrivalsExitLogNormal t N tLand tEnd sigma mf <= N.
Proof.
  intros HN Hs.
  destruct (window_cases t tLand tEnd) as [Hb | [[Hl Ha] | [Hl Hi]]].
  - rewrite arrivals_before by easy. lra.
  - rewrite arrivals_after by easy. lra.
  - rewrite arrivals_inside by easy.
    pose proof (fraction_bounds t tLand tEnd sigma mf Hs Hl Hi). nra.
Qed.

Lemma passengers_mono (t1 t2 N tOpen tDep sigma mf : R) :
  0 <= N -> 0 < sigma -> t1 <= t2 ->
  passengersLogNormal t1 N tOpen tDep sigma mf
  <= passengersLogNormal t2 N tOpen tDep sigma mf.
Proof.
  intros HN Hs H12.
  destruct (window_cases t1 tOpen tDep) as [Hb | [[Hl Ha] | [Hl Hi]]].
  - rewrite (passengers_before t1) by easy. now apply passengers_range.
  - rewrite (passengers_after t1), (passengers_after t2) by lra. lra.
  - destruct (Rlt_le_dec t2 tDep) as [Hi2 | Ha2].
    + rewrite !passengers_inside by lra.
      apply Rmult_le_compat_l; [easy |]. apply fraction_mono; lra.
    + rewrite (passengers_after t2) by lra. now apply passengers_range.
Qed.

Lemma arrivals_antitone (t1 t2 N tLand tEnd sigma mf : R) :
  0 <= N -> 0 < sigma -> t1 <= t2 ->
  arrivalsExitLogNormal t2 N tLand tEnd sigma mf
  <= arrivalsExitLogNormal t1 N tLand tEnd sigma mf.
Proof.
  intros HN Hs H12.
  destruct (window_cases t1 tLand tEnd) as [Hb | [[Hl Ha] | [Hl Hi]]].
  - rewrite (arrivals_before t1) by easy. now apply arrivals_range.
  - rewrite (arrivals_after t1), (arrivals_after t2) by lra. lra.
  - destruct (Rlt_le_dec t2 tEnd) as [Hi2 | Ha2].
    + rewrite !arrivals_inside by lra.
      assert (Hf : lognormCDF ((t1 - tLand) / (tEnd - tLand)) sigma mf
                   / lognormCDF 1.0 sigma mf
                   <= lognormCDF ((t2 - tLand) / (tEnd - tLand)) sigma mf
                      / lognormCDF 1.0 sigma mf)
        by (apply fraction_mono; lra).
      nra.
    + rewrite (arrivals_after t2) by lra. now apply arrivals_range.
Qed.

(** ** The five-minute loop *)

Lemma for_each_5min_step {A : Type} (body : Z -> A) (t tEnd : Z) :
  for_each_5min body t tEnd =
  if Z_le_dec t tEnd
  then body t :: for_each_5min body (t + FIVE_MINUTES_IN_SECONDS) tEnd
  else [].
Proof.
  rewrite (for_each_5min_equation_1 _ body t tEnd).
  destruct (Z_le_dec t tEnd); reflexivity.
Qed.

Lemma for_each_5min_in_range {A : Type} (body : Z -> A) (t tEnd : Z) :
  (t <= tEnd)%Z ->
  for_each_5min body t tEnd =
  body t :: for_each_5min body (t + FIVE_MINUTES_IN_SECONDS) tEnd.
Proof.
  intros Hle. rewrite for_each_5min_step.
  destruct (Z_le_dec t tEnd); [reflexivity | lia].
Qed.

Lemma for_each_5min_done {A : Type} (body : Z -> A) (t tEnd : Z) :
  (tEnd < t)%Z -> for_each_5min body t tEnd = [].
Proof.
  intros Hlt. rewrite for_each_5min_step.
  destruct (Z_le_dec t tEnd); [lia | reflexivity].
Qed.

(** Induction along the iterations of the loop. *)
Lemma for_each_5min_ind {A : Type} (body : Z -> A) (tEnd : Z)
    (P : Z -> list A -> Prop) :
  (forall t, (tEnd < t)%Z -> P t []) ->
  (forall t l, (t <= tEnd)%Z ->
     P (t + FIVE_MINUTES_IN_SECONDS)%Z l -> P t (body t :: l)) ->
  forall t, P t (for_each_5min body t tEnd).
Proof.
  intros Hdone Hstep t.
  remember (Z.to_nat (tEnd - t + 1)) as n eqn:Hn.
  revert t Hn. induction n as [n IH] using lt_wf_ind. intros t Hn.
  destruct (Z_le_dec t tEnd) as [Hle | Hgt].
  - rewrite for_each_5min_in_range by easy. apply Hstep; [easy |].
    apply (IH (Z.to_nat (tEnd - (t + FIVE_MINUTES_IN_SECONDS) + 1)));
      [unfold FIVE_MINUTES_IN_SECONDS; lia | reflexivity].
  - rewrite for_each_5min_done by lia. apply Hdone. lia.
Qed.

(** Every pushed value comes from an instant of the range. *)
Lemma for_each_5min_Forall {A : Type} (body : Z -> A) (P : A -> Prop)
    (t tEnd : Z) :
  (forall u, (t <= u <= tEnd)%Z -> P (body u)) ->
  Forall P (for_each_5min body t tEnd).
Proof.
  revert t.
  apply (for_each_5min_ind body tEnd
           (fun t l => (forall u, (t <= u <= tEnd)%Z -> P (body u)) -> Forall P l)).
  - intros t _ _. constructor.
  - intros t l Hle IH Hall. constructor.
    + apply Hall. lia.
    + apply IH. intros u Hu. apply Hall.
      unfold FIVE_MINUTES_IN_SECONDS in Hu. lia.
Qed.

(** The instant reached after [k] steps is visited. *)
Lemma for_each_5min_visits {A : Type} (body : Z -> A) (tEnd : Z) (k : nat) :
  forall t, (t + FIVE_MINUTES_IN_SECONDS * Z.of_nat k <= tEnd)%Z ->
  In (body (t + FIVE_MINUTES_IN_SECONDS * Z.of_nat k)%Z)
     (for_each_5min body t tEnd).
Proof.
  unfold FIVE_MINUTES_IN_SECONDS.
  induction k as [| k IH]; intros t Hle.
  - rewrite for_each_5min_in_range by lia. left. f_equal. lia.
  - rewrite for_each_5min_in_range by lia. right.
    replace (t + 300 * Z.of_nat (S k))%Z
      with ((t + FIVE_MINUTES_IN_SECONDS) + 300 * Z.of_nat k)%Z
      by (unfold FIVE_MINUTES_IN_SECONDS; lia).
    apply IH. unfold FIVE_MINUTES_IN_SECONDS. lia.
Qed.

Lemma for_each_5min_nonempty {A : Type} (body : Z -> A) (t tEnd : Z) :
  (t <= tEnd)%Z -> for_each_5min body t tEnd <> [].
Proof. intros Hle. rewrite for_each_5min_in_range by easy. discriminate. Qed.

(** The last pushed value is the one of the last instant of the range. *)
Lemma for_each_5min_last {A : Type} (body : Z -> A) (t tEnd : Z) :
  (t <= tEnd)%Z ->
  last (for_each_5min body t tEnd) =
  Some (body (tEnd - (tEnd - t) mod FIVE_MINUTES_IN_SECONDS)%Z).
Proof.
  remember (Z.to_nat (tEnd - t + 1)) as n eqn:Hn.
  revert t Hn. induction n as [n IH] using lt_wf_ind. intros t Hn Hle.
  rewrite for_each_5min_in_range by easy.
  destruct (Z_le_dec (t + FIVE_MINUTES_IN_SECONDS) tEnd) as [Hnext | Hstop].
  - assert (Hne := for_each_5min_nonempty body _ _ Hnext).
    destruct (for_each_5min body (t + FIVE_MINUTES_IN_SECONDS) tEnd)
      as [| x l] eqn:E; [easy |].
    change (last (body t :: x :: l)) with (last (x :: l)). rewrite <- E.
    rewrite (IH (Z.to_nat (tEnd - (t + FIVE_MINUTES_IN_SECONDS) + 1)));
      [| unfold FIVE_MINUTES_IN_SECONDS; lia | reflexivity | easy].
    do 2 f_equal. f_equal.
    replace (tEnd - (t + FIVE_MINUTES_IN_SECONDS))%Z
      with ((tEnd - t) + (-1) * FIVE_MINUTES_IN_SECONDS)%Z by lia.
    apply Z_mod_plus_full.
  - rewrite for_each_5min_done by lia. simpl. do 2 f_equal.
    unfold FIVE_MINUTES_IN_SECONDS in *.
    rewrite Z.mod_small by lia. lia.
Qed.

(** ** Boundary values and monotonicity of the two curves *)

(** C1: for every cohort size [N >= 0] and every window with
    [tLand < tEnd], the arrival dissipation function returns exactly [N]
    at every time [t <= tLand] and exactly [0] at every time
    [t >= tEnd]. *)
Theorem arrivals_boundary_values (N tLand tEnd sigma medianFraction : R) :
  0 <= N -> tLand < tEnd ->
  (forall t, t <= tLand ->
     arrivalsExitLogNormal t N tLand tEnd sigma medianFraction = N)
  /\ (forall t, t >= tEnd ->
        arrivalsExitLogNormal t N tLand tEnd sigma medianFraction = 0).
Proof.
  intros _ Hwin. split; intros t Ht.
  - now apply arrivals_before.
  - apply arrivals_after; lra.
Qed.

Lemma arrivals_boundary_values_witness :
  arrivalsExitLogNormal 0 80 0 5400 arrival_sigma arrival_medianFraction = 80
  /\ arrivalsExitLogNormal 5400 80 0 5400 arrival_sigma arrival_medianFraction = 0.
Proof.
  destruct (arrivals_boundary_values 80 0 5400 arrival_sigma
              arrival_medianFraction) as [Hb Ha]; [lra | lra |].
  split; [apply Hb | apply Ha]; lra.
Defined.

(** C2: for every cohort size [N >= 0] and every window with
    [tOpen < tDep], the departure accumulation function returns exactly
    [0] at every time [t <= tOpen] and exactly [N] at every time
    [t >= tDep]. *)
Theorem passengers_boundary_values (N tOpen tDep sigma medianFraction : R) :
  0 <= N -> tOpen < tDep ->
  (forall t, t <= tOpen ->
     passengersLogNormal t N tOpen tDep sigma medianFraction = 0)
  /\ (forall t, t >= tDep ->
        passengersLogNormal t N tOpen tDep sigma medianFraction = N).
Proof.
  intros _ Hwin. split; intros t Ht.
  - now apply passengers_before.
  - apply passengers_after; lra.
Qed.

Lemma passengers_boundary_values_witness :
  passengersLogNormal 0 150 0 10800 departure_sigma departure_medianFraction = 0
  /\ passengersLogNormal 10800 150 0 10800 departure_sigma
       departure_medianFraction = 150.
Proof.
  destruct (passengers_boundary_values 150 0 10800 departure_sigma
              departure_medianFraction) as [Hb Ha]; [lra | lra |].
  split; [apply Hb | apply Ha]; lra.
Defined.

(** C3, as amended: for [N >= 0], at the arguments the program passes
    (the default shape parameters of each curve, whole-second instants, the
    ninety-minute window after the anchor for an arrival and the window
    from the snapped opening to the anchor for a departure), the arrival
    dissipation curve is non-increasing in [t] and the departure
    accumulation curve is non-decreasing in [t]. *)
Theorem curves_monotone_at_call_sites (N : R) (tAnchor t1 t2 : Z) :
  0 <= N -> (t1 <= t2)%Z ->
  arrivalsExitLogNormal (IZR t1) N (IZR tAnchor)
    (IZR (tAnchor + NINETY_MINS_IN_SECONDS))
    arrival_sigma arrival_medianFraction
  >= arrivalsExitLogNormal (IZR t2) N (IZR tAnchor)
       (IZR (tAnchor + NINETY_MINS_IN_SECONDS))
       arrival_sigma arrival_medianFraction
  /\ passengersLogNormal (IZR t1) N (IZR (departure_open tAnchor))
       (IZR tAnchor) departure_sigma departure_medianFraction
     <= passengersLogNormal (IZR t2) N (IZR (departure_open tAnchor))
          (IZR tAnchor) departure_sigma departure_medianFraction.
Proof.
  intros HN H12. apply IZR_le in H12. split.
  - apply Rle_ge. apply arrivals_antitone;
      [easy | unfold arrival_sigma; lra | easy].
  - apply passengers_mono; [easy | unfold departure_sigma; lra | easy].
Qed.

Lemma curves_monotone_at_call_sites_witness :
  arrivalsExitLogNormal (IZR 600) 80 (IZR 0)
    (IZR (0 + NINETY_MINS_IN_SECONDS))
    arrival_sigma arrival_medianFraction
  >= arrivalsExitLogNormal (IZR 1200) 80 (IZR 0)
       (IZR (0 + NINETY_MINS_IN_SECONDS))
       arrival_sigma arrival_medianFraction
  /\ passengersLogNormal (IZR 600) 80 (IZR (departure_open 0))
       (IZR 0) departure_sigma departure_medianFraction
     <= passengersLogNormal (IZR 1200) 80 (IZR (departure_open 0))
          (IZR 0) departure_sigma departure_medianFraction.
Proof.
  apply (curves_monotone_at_call_sites 80 0 600 1200); [lra | lia].
Defined.

(** ** The curves in double precision at a narrow shape *)

Module DoubleFacts.
Import PrimFloat.
Import Double.
#[local] Set Warnings "-inexact-float".
Local Open Scope float_scope.

Lemma table_math_underflows : underflows table_math.
Proof.
  intros x Hx. cbn [Math_exp table_math]. unfold table_exp.
  now rewrite Hx.
Qed.

Lemma table_math_log_table : log_table table_math.
Proof. repeat split. Qed.

(** With [sigma = 0.01] and [medianFraction = 2], the normal CDF is
    evaluated some sixty-nine standard deviations below zero and further:
    [Math.exp] underflows, the CDF is exactly [0], and the normalising
    division is [0 / 0]. *)
Lemma lognormCDF_underflow (M : MathLib) :
  underflows M -> log_table M ->
  lognormCDF M 1.0 0.01 2 = 0
  /\ lognormCDF M 0.5 0.01 2 = 0
  /\ lognormCDF M 0.25 0.01 2 = 0.
Proof.
  intros He (L1 & L2 & L5 & L25).
  unfold lognormCDF, normalCDF. cbv zeta.
  change (1.0 <=? 0) with false. change (0.5 <=? 0) with false.
  change (0.25 <=? 0) with false. cbv iota.
  change 1.0 with 1. rewrite L1, L2, L5, L25.
  split; [| split]; (rewrite He by reflexivity); reflexivity.
Qed.

Lemma curves_undefined (M : MathLib) :
  underflows M -> log_table M ->
  arrivalsExitLogNormal M 1350 100 0 5400 0.01 2 = nan
  /\ arrivalsExitLogNormal M 2700 100 0 5400 0.01 2 = nan
  /\ passengersLogNormal M 1350 100 0 5400 0.01 2 = nan
  /\ passengersLogNormal M 2700 100 0 5400 0.01 2 = nan.
Proof.
  intros He Hl. destruct (lognormCDF_underflow M He Hl) as (Hmax & H5 & H25).
  unfold arrivalsExitLogNormal, passengersLogNormal. cbv zeta.
  change (1350 <=? 0) with false. change (2700 <=? 0) with false.
  change (5400 <=? 1350) with false. change (5400 <=? 2700) with false.
  cbv iota.
  change ((1350 - 0) / (5400 - 0)) with 0.25.
  change ((2700 - 0) / (5400 - 0)) with 0.5.
  rewrite Hmax, H5, H25. repeat split.
Qed.

(** C3, counterexample to the unamended statement: with [N = 100], the
    window from [0] to [5400], [sigma = 0.01 > 0] and
    [medianFraction = 2 > 0], the code's doubles make both curves [NaN] at
    [t1 = 1350 <= t2 = 2700], so neither
    [arrivalsExitLogNormal (t1) >= arrivalsExitLogNormal (t2)] nor
    [passengersLogNormal (t1) <= passengersLogNormal (t2)] holds. *)
Lemma curves_not_monotone_counterexample :
  (0 <=? 100) = true /\ (0 <? 5400) = true
  /\ (0 <? 0.01) = true /\ (0 <? 2) = true /\ (1350 <=? 2700) = true
  /\ lognormCDF table_math 1.0 0.01 2 = 0
  /\ arrivalsExitLogNormal table_math 1350 100 0 5400 0.01 2 = nan
  /\ arrivalsExitLogNormal table_math 2700 100 0 5400 0.01 2 = nan
  /\ passengersLogNormal table_math 1350 100 0 5400 0.01 2 = nan
  /\ passengersLogNormal table_math 2700 100 0 5400 0.01 2 = nan
  /\ (arrivalsExitLogNormal table_math 2700 100 0 5400 0.01 2
      <=? arrivalsExitLogNormal table_math 1350 100 0 5400 0.01 2) = false
  /\ (passengersLogNormal table_math 1350 100 0 5400 0.01 2
      <=? passengersLogNormal table_math 2700 100 0 5400 0.01 2) = false.
Proof.
  destruct (lognormCDF_underflow table_math table_math_underflows
              table_math_log_table) as (Hmax & _ & _).
  destruct (curves_undefined table_math table_math_underflows
              table_math_log_table) as (Ha1 & Ha2 & Hp1 & Hp2).
  rewrite Ha1, Ha2, Hp1, Hp2, Hmax. vm_compute. repeat split.
Qed.

End DoubleFacts.

(** C9: for every [sigma > 0] and [scale > 0], [lognormCDF x sigma scale]
    is exactly [0] for every [x <= 0], and for every [x > 0] it is the
    normal CDF approximation at [(ln x - ln scale) / sigma]. *)
Theorem lognormCDF_cases (sigma scale : R) :
  0 < sigma -> 0 < scale ->
  (forall x, x <= 0 -> lognormCDF x sigma scale = 0)
  /\ (forall x, 0 < x ->
        lognormCDF x sigma scale = normalCDF ((ln x - ln scale) / sigma)).
Proof.
  intros _ _. split; intros x Hx.
  - now apply lognormCDF_nonpos.
  - now apply lognormCDF_positive.
Qed.

Lemma lognormCDF_cases_witness :
  lognormCDF (-1) departure_sigma departure_medianFraction = 0
  /\ lognormCDF 1 departure_sigma departure_medianFraction
     = normalCDF ((ln 1 - ln departure_medianFraction) / departure_sigma).
Proof.
  destruct (lognormCDF_cases departure_sigma departure_medianFraction)
    as [Hn Hp]; [unfold departure_sigma; lra
                | unfold departure_medianFraction; lra |].
  split; [apply Hn | apply Hp]; lra.
Defined.

(** ** The per-flight series *)

Lemma or_num_default (d : R) : Js.or_num (Some 0) d = d.
Proof. unfold Js.or_num. destruct (Req_dec_T 0 0); [reflexivity | lra]. Qed.

Lemma or_num_value (v d : R) : v <> 0 -> Js.or_num (Some v) d = v.
Proof. intros Hv. unfold Js.or_num. now destruct (Req_dec_T v 0). Qed.

Lemma departure_not_arrival (fType : option string) :
  is_departure_type fType = true -> is_arrival_type fType = false.
Proof.
  unfold is_departure_type, is_arrival_type, Js.str_eq.
  destruct fType as [s |]; [| discriminate].
  intros Hd. apply orb_true_iff in Hd.
  destruct Hd as [Hd | Hd]; apply String.eqb_eq in Hd; subst; reflexivity.
Qed.

Lemma departure_open_lt (tDep : Z) : (departure_open tDep < tDep)%Z.
Proof.
  unfold departure_open, THREE_HOURS_IN_SECONDS, SECONDS_IN_HOUR.
  pose proof (Z.rem_bound_abs (tDep - 3 * 3600) 3600). lia.
Qed.

Lemma departure_open_IZR_lt (tDep : Z) : IZR (departure_open tDep) < IZR tDep.
Proof. apply IZR_lt, departure_open_lt. Qed.

Section Series.
Context `{DateLib}.

Lemma distribution_untimed (flight : CampaignFlight) :
  Js.truthy_str
    (Js.or_str (actual_time_utc flight) (scheduled_time_utc flight)) = false ->
  calculatePassengerDistribution flight = [].
Proof.
  unfold calculatePassengerDistribution.
  destruct (Js.or_str _ _) as [[| c s] |]; [reflexivity | discriminate | reflexivity].
Qed.

Lemma distribution_unrecognized (flight : CampaignFlight) :
  is_arrival_type (lowered_type flight) = false ->
  is_departure_type (lowered_type flight) = false ->
  calculatePassengerDistribution flight = [].
Proof.
  intros Ha Hd. unfold calculatePassengerDistribution.
  destruct (Js.or_str _ _) as [[| c s] |]; [reflexivity | | reflexivity].
  cbv zeta. now rewrite Ha, Hd.
Qed.

Lemma distribution_departure (flight : CampaignFlight) (s : string) :
  Js.or_str (actual_time_utc flight) (scheduled_time_utc flight) = Some s ->
  s <> "" ->
  is_departure_type (lowered_type flight) = true ->
  calculatePassengerDistribution flight =
  if decide ((dayjs_unix s - departure_open (dayjs_unix s))
               mod FIVE_MINUTES_IN_SECONDS = 0)%Z
  then departure_steps flight (dayjs_unix s)
  else departure_steps flight (dayjs_unix s)
       ++ [point_at flight (dayjs_unix s) (pax_or_default flight)].
Proof.
  intros Hs Hne Hd. unfold calculatePassengerDistribution.
  rewrite Hs. destruct s as [| c s]; [easy |].
  cbv zeta. rewrite (departure_not_arrival _ Hd), Hd.
  fold (departure_steps flight (dayjs_unix (String c s))).
  set (tDep := dayjs_unix (String c s)).
  pose proof (departure_open_lt tDep) as Hlt.
  unfold departure_steps at 1.
  rewrite for_each_5min_last by lia. cbn [time point_at].
  pose proof (Z.mod_pos_bound (tDep - departure_open tDep)
                FIVE_MINUTES_IN_SECONDS) as Hm.
  unfold FIVE_MINUTES_IN_SECONDS in *.
  destruct (decide _) as [E | E].
  - rewrite E. replace (tDep - 0 <? tDep)%Z with false; [reflexivity |].
    symmetry. apply Z.ltb_ge. lia.
  - replace (_ <? tDep)%Z with true; [reflexivity |].
    symmetry. apply Z.ltb_lt. lia.
Qed.

Lemma departure_steps_last (flight : CampaignFlight) (tDep : Z) :
  ((tDep - departure_open tDep) mod FIVE_MINUTES_IN_SECONDS = 0)%Z ->
  last (departure_steps flight tDep)
  = Some (point_at flight tDep (pax_or_default flight)).
Proof.
  intros E. pose proof (departure_open_lt tDep) as Hlt.
  unfold departure_steps. rewrite for_each_5min_last by lia.
  rewrite E, Z.sub_0_r. do 2 f_equal.
  apply passengers_after; [apply departure_open_IZR_lt | lra].
Qed.

Lemma distribution_departure_last (flight : CampaignFlight) (s : string) :
  Js.or_str (actual_time_utc flight) (scheduled_time_utc flight) = Some s ->
  s <> "" ->
  is_departure_type (lowered_type flight) = true ->
  last (calculatePassengerDistribution flight)
  = Some (point_at flight (dayjs_unix s) (pax_or_default flight)).
Proof.
  intros Hs Hne Hd. rewrite (distribution_departure flight s Hs Hne Hd).
  destruct (decide _) as [E | E].
  - now apply departure_steps_last.
  - apply last_snoc.
Qed.

Lemma point_at_bounds (flight : CampaignFlight) (t : Z) (count N : R) :
  0 <= count <= N ->
  (0 <= passenger_count (point_at flight t count) <= Js.Math_round N)%Z.
Proof.
  intros [H0 HN]. cbn [passenger_count point_at]. split.
  - now apply Math_round_nonneg.
  - now apply Math_round_mono.
Qed.

Lemma distribution_bounds (flight : CampaignFlight) :
  0 <= pax_or_default flight ->
  Forall (fun p => (0 <= passenger_count p
                    <= Js.Math_round (pax_or_default flight))%Z)
         (calculatePassengerDistribution flight).
Proof.
  intros HN. unfold calculatePassengerDistribution.
  destruct (Js.or_str _ _) as [[| c s] |]; [constructor | | constructor].
  cbv zeta. set (tA := dayjs_unix (String c s)).
  destruct (is_arrival_type _).
  - apply for_each_5min_Forall. intros u _. apply point_at_bounds.
    apply arrivals_range; [easy | unfold arrival_sigma; lra].
  - destruct (is_departure_type _); [| constructor].
    assert (Hsteps : Forall (fun p => (0 <= passenger_count p
                               <= Js.Math_round (pax_or_default flight))%Z)
              (for_each_5min
                 (fun t => point_at flight t
                    (passengersLogNormal (IZR t) (pax_or_default flight)
                       (IZR (departure_open tA)) (IZR tA)
                       departure_sigma departure_medianFraction))
                 (departure_open tA) tA)).
    { apply for_each_5min_Forall. intros u _. apply point_at_bounds.
      apply passengers_range; [easy | unfold departure_sigma; lra]. }
    destruct (_ <? tA)%Z; [| exact Hsteps].
    apply Forall_app. split; [exact Hsteps |].
    constructor; [| constructor]. apply point_at_bounds. lra.
Qed.

End Series.

(** ** The multi-flight grid *)

Lemma column_key_inj : Inj (=) (=) column_key.
Proof.
  intros i j Hij. unfold column_key in Hij.
  apply (inj pretty). exact (String.app_inj "flight_" _ _ Hij).
Qed.

Section Grid.
Context `{DateLib}.

Lemma grid_unfold (flights : list CampaignFlight) :
  flights <> [] ->
  calculatePassengerGridData flights =
  for_each_5min (grid_row (imap flight_data flights))
    (grid_startTime flights) (grid_maxTime flights).
Proof. intros Hne. destruct flights; [easy | reflexivity]. Qed.

(** Every row of the grid is the row of some instant. *)
Lemma grid_rows_shape (flights : list CampaignFlight) (row : PassengerGridRow) :
  In row (calculatePassengerGridData flights) ->
  exists t, row = grid_row (imap flight_data flights) t.
Proof.
  destruct flights as [| f l]; [intros [] |].
  rewrite grid_unfold by easy. revert row. apply List.Forall_forall.
  apply for_each_5min_Forall. intros u _. now exists u.
Qed.

Lemma grid_rows_Forall (flights : list CampaignFlight)
    (P : PassengerGridRow -> Prop) :
  (forall t, P (grid_row (imap flight_data flights) t)) ->
  Forall P (calculatePassengerGridData flights).
Proof.
  intros HP. apply List.Forall_forall. intros row Hin.
  destruct (grid_rows_shape _ _ Hin) as [t ->]. apply HP.
Qed.

(** The instant reached after [k] steps has a row. *)
Lemma grid_row_present (flights : list CampaignFlight) (k : nat) :
  flights <> [] ->
  (grid_startTime flights + FIVE_MINUTES_IN_SECONDS * Z.of_nat k
   <= grid_maxTime flights)%Z ->
  In (grid_row (imap flight_data flights)
        (grid_startTime flights + FIVE_MINUTES_IN_SECONDS * Z.of_nat k)%Z)
     (calculatePassengerGridData flights).
Proof.
  intros Hne Hle. rewrite grid_unfold by easy.
  now apply for_each_5min_visits.
Qed.

(** *** The inner loop *)

Lemma fold_add_flight_total (t : Z) (fds : list FlightData)
    (acc : gmap string Z * Z) :
  snd (fold_left (add_flight t) fds acc) =
  (snd acc
   + foldr Z.add 0 (map (fun fd => Js.Math_round (passengers_at fd t)) fds))%Z.
Proof.
  revert acc. induction fds as [| fd fds IH]; intros acc; simpl.
  - lia.
  - rewrite IH. simpl. lia.
Qed.

Lemma fold_add_flight_other (t : Z) (fds : list FlightData)
    (acc : gmap string Z * Z) (k : string) :
  ~ In k (map columnKey fds) ->
  fst (fold_left (add_flight t) fds acc) !! k = fst acc !! k.
Proof.
  revert acc. induction fds as [| fd fds IH]; intros acc Hk; simpl.
  - reflexivity.
  - rewrite IH by (intros Hin; apply Hk; now right).
    simpl. apply lookup_insert_ne. intros E. apply Hk. now left.
Qed.

Lemma fold_add_flight_cell (t : Z) (fds : list FlightData)
    (acc : gmap string Z * Z) (i : nat) (fd : FlightData) :
  List.NoDup (map columnKey fds) ->
  fds !! i = Some fd ->
  fst (fold_left (add_flight t) fds acc) !! columnKey fd
  = Some (Js.Math_round (passengers_at fd t)).
Proof.
  revert acc i. induction fds as [| fd0 fds IH]; intros acc i Hnd Hi.
  - discriminate.
  - simpl in Hnd. apply List.NoDup_cons_iff in Hnd as [Hnotin Hnd].
    destruct i as [| i]; simpl in Hi.
    + injection Hi as ->. simpl.
      rewrite fold_add_flight_other by exact Hnotin.
      simpl. apply lookup_insert_eq.
    + simpl. now apply (IH _ i).
Qed.

Lemma flight_data_keys (flights : list CampaignFlight) :
  map columnKey (imap flight_data flights)
  = map column_key (seq 0 (length flights)).
Proof.
  apply list_eq. intros i.
  change (map columnKey (imap flight_data flights))
    with (columnKey <$> imap flight_data flights).
  change (map column_key (seq 0 (length flights)))
    with (column_key <$> seq 0 (length flights)).
  rewrite !list_lookup_fmap, list_lookup_imap.
  destruct (flights !! i) as [f |] eqn:E; simpl.
  - rewrite lookup_seq_lt by (now apply lookup_lt_Some in E). reflexivity.
  - rewrite lookup_seq_ge by (now apply lookup_ge_None in E). reflexivity.
Qed.

Lemma flight_data_keys_NoDup (flights : list CampaignFlight) :
  List.NoDup (map columnKey (imap flight_data flights)).
Proof.
  rewrite flight_data_keys. apply NoDup_ListNoDup.
  apply (@NoDup_fmap_2 _ _ column_key column_key_inj). apply NoDup_seq.
Qed.

(** The cell of the flight at position [i] holds its rounded value. *)
Lemma grid_row_cell (flights : list CampaignFlight) (i : nat)
    (f : CampaignFlight) (t : Z) :
  flights !! i = Some f ->
  row_cells (grid_row (imap flight_data flights) t) !! column_key i
  = Some (Js.Math_round (passengers_at (flight_data i f) t)).
Proof.
  intros Hi. unfold grid_row. cbn [row_cells].
  change (column_key i) with (columnKey (flight_data i f)).
  apply (fold_add_flight_cell t _ _ i).
  - apply flight_data_keys_NoDup.
  - rewrite list_lookup_imap, Hi. reflexivity.
Qed.

Lemma grid_row_total (flights : list CampaignFlight) (t : Z) :
  total (grid_row (imap flight_data flights) t)
  = per_flight_sum (grid_row (imap flight_data flights) t) (length flights).
Proof.
  unfold grid_row at 1. cbn [total].
  rewrite fold_add_flight_total. cbn [snd]. rewrite Z.add_0_l.
  unfold per_flight_sum. f_equal.
  apply list_eq. intros i.
  change (map ?g ?l) with (g <$> l).
  rewrite !list_lookup_fmap, list_lookup_imap.
  destruct (flights !! i) as [f |] eqn:E; simpl.
  - rewrite lookup_seq_lt by (now apply lookup_lt_Some in E). simpl.
    unfold cell. now rewrite (grid_row_cell flights i f t E).
  - rewrite lookup_seq_ge by (now apply lookup_ge_None in E). reflexivity.
Qed.

End Grid.

(** ** What a flight contributes to a grid row *)

Section Cells.
Context `{DateLib}.

Lemma flight_data_anchor (i : nat) (f : CampaignFlight) (s : string) :
  Js.or_str (actual_time_utc f) (scheduled_time_utc f) = Some s ->
  s <> "" ->
  tActual (flight_data i f) = dayjs_unix s.
Proof.
  intros Hs Hne. unfold flight_data. cbn [tActual]. rewrite Hs.
  destruct s; [easy | reflexivity].
Qed.

Lemma passengers_at_arrival (i : nat) (f : CampaignFlight) (t : Z) :
  is_arrival_type (lowered_type f) = true ->
  passengers_at (flight_data i f) t =
  let tLand := tActual (flight_data i f) in
  if (t <? tLand)%Z then 0
  else arrivalsExitLogNormal (IZR t) (pax_or_default f) (IZR tLand)
         (IZR (tLand + NINETY_MINS_IN_SECONDS))
         arrival_sigma arrival_medianFraction.
Proof.
  intros Ha. unfold passengers_at.
  change (isArrival (flight_data i f)) with (is_arrival_type (lowered_type f)).
  rewrite Ha. reflexivity.
Qed.

Lemma passengers_at_other (i : nat) (f : CampaignFlight) (t : Z) :
  is_arrival_type (lowered_type f) = false ->
  passengers_at (flight_data i f) t =
  let tDep := tActual (flight_data i f) in
  if (tDep <? t)%Z then 0
  else passengersLogNormal (IZR t) (pax_or_default f)
         (IZR (departure_open tDep)) (IZR tDep)
         departure_sigma departure_medianFraction.
Proof.
  intros Ha. unfold passengers_at.
  change (isArrival (flight_data i f)) with (is_arrival_type (lowered_type f)).
  rewrite Ha. reflexivity.
Qed.

(** A flight that is not an arrival counts all its passengers at its
    anchor instant. *)
Lemma passengers_at_other_anchor (i : nat) (f : CampaignFlight) :
  is_arrival_type (lowered_type f) = false ->
  passengers_at (flight_data i f) (tActual (flight_data i f))
  = pax_or_default f.
Proof.
  intros Ha. rewrite passengers_at_other by exact Ha. cbv zeta.
  rewrite Z.ltb_irrefl.
  apply passengers_after; [apply departure_open_IZR_lt | lra].
Qed.

End Cells.

(** ** The grid reads only the type, the timestamps and the estimate *)

Lemma for_each_5min_ext {A : Type} (body1 body2 : Z -> A) (t tEnd : Z) :
  (forall u, body1 u = body2 u) ->
  for_each_5min body1 t tEnd = for_each_5min body2 t tEnd.
Proof.
  intros Hext. revert t.
  apply (for_each_5min_ind body1 tEnd
           (fun t l => l = for_each_5min body2 t tEnd)).
  - intros t Hgt. now rewrite for_each_5min_done.
  - intros t l Hle ->. rewrite (for_each_5min_in_range body2 t) by easy.
    now rewrite Hext.
Qed.

Section SameInputs.
Context `{DateLib}.

Lemma fold_add_flight_ext (t : Z) (fds fds' : list FlightData)
    (acc : gmap string Z * Z) :
  map (fun fd => (columnKey fd, passengers_at fd t)) fds
  = map (fun fd => (columnKey fd, passengers_at fd t)) fds' ->
  fold_left (add_flight t) fds acc = fold_left (add_flight t) fds' acc.
Proof.
  revert fds' acc. induction fds as [| fd fds IH]; intros [| fd' fds'] acc E;
    try discriminate; [reflexivity |].
  simpl in E. injection E as Ek Ep E. simpl.
  unfold add_flight at 2 4. rewrite Ek, Ep. now apply IH.
Qed.

Lemma flight_data_same_inputs (i : nat) (f f' : CampaignFlight) :
  flight_type f = flight_type f' ->
  scheduled_time_utc f = scheduled_time_utc f' ->
  actual_time_utc f = actual_time_utc f' ->
  pax_or_default f = pax_or_default f' ->
  windowStart (flight_data i f) = windowStart (flight_data i f')
  /\ windowEnd (flight_data i f) = windowEnd (flight_data i f')
  /\ forall t, (columnKey (flight_data i f), passengers_at (flight_data i f) t)
               = (columnKey (flight_data i f'), passengers_at (flight_data i f') t).
Proof.
  intros Ht Hs Ha Hp.
  unfold passengers_at, flight_data, lowered_type.
  cbn [windowStart windowEnd columnKey isArrival tActual fd_N].
  rewrite Ht, Hs, Ha, Hp. repeat split.
Qed.

Lemma grid_same_inputs (before after : list CampaignFlight)
    (f f' : CampaignFlight) :
  flight_type f = flight_type f' ->
  scheduled_time_utc f = scheduled_time_utc f' ->
  actual_time_utc f = actual_time_utc f' ->
  pax_or_default f = pax_or_default f' ->
  calculatePassengerGridData (before ++ f :: after)
  = calculatePassengerGridData (before ++ f' :: after).
Proof.
  intros Ht Hs Ha Hp.
  rewrite !grid_unfold by (now destruct before).
  unfold grid_startTime, grid_maxTime.
  rewrite !imap_app, !imap_cons, !map_app. cbn [map].
  destruct (flight_data_same_inputs (length before + 0) f f' Ht Hs Ha Hp)
    as (Hws & Hwe & Hcell).
  rewrite Hws, Hwe. apply for_each_5min_ext. intros u.
  unfold grid_row. f_equal; f_equal; apply fold_add_flight_ext;
    rewrite !map_app; cbn [map]; now rewrite Hcell.
Qed.

Lemma distribution_same_inputs (f : CampaignFlight) (pax : option R) :
  pax_or_default f = Js.or_num pax 100 ->
  calculatePassengerDistribution f
  = calculatePassengerDistribution (with_pax f pax).
Proof.
  intros Hp. unfold calculatePassengerDistribution, lowered_type.
  change (pax_or_default (with_pax f pax)) with (Js.or_num pax 100).
  rewrite <- Hp. reflexivity.
Qed.

End SameInputs.

(** ** The grid of a non-empty selection has rows *)

Lemma fold_min_le (l : list Z) (a : Z) : (fold_left Z.min l a <= a)%Z.
Proof.
  revert a. induction l as [| x l IH]; intros a; simpl; [lia |].
  specialize (IH (Z.min a x)). lia.
Qed.

Lemma fold_max_ge (l : list Z) (a : Z) : (a <= fold_left Z.max l a)%Z.
Proof.
  revert a. induction l as [| x l IH]; intros a; simpl; [lia |].
  specialize (IH (Z.max a x)). lia.
Qed.

Section GridRange.
Context `{DateLib}.

Lemma window_ordered (i : nat) (f : CampaignFlight) :
  (windowStart (flight_data i f) <= windowEnd (flight_data i f))%Z.
Proof.
  unfold flight_data. cbn [windowStart windowEnd].
  destruct (is_arrival_type _).
  - unfold NINETY_MINS_IN_SECONDS. lia.
  - match goal with |- (departure_open ?x <= _)%Z =>
      pose proof (departure_open_lt x) end. lia.
Qed.

Lemma grid_range_ordered (flights : list CampaignFlight) :
  flights <> [] -> (grid_startTime flights <= grid_maxTime flights)%Z.
Proof.
  destruct flights as [| f l]; [easy | intros _].
  unfold grid_startTime, grid_maxTime. rewrite imap_cons. cbn [map].
  unfold Js.Math_min, Js.Math_max, Js.floor_div.
  pose proof (window_ordered 0 f) as Hw.
  pose proof (fold_min_le (map windowStart (imap (flight_data ∘ S) l))
                (windowStart (flight_data 0 f))) as Hmin.
  pose proof (fold_max_ge (map windowEnd (imap (flight_data ∘ S) l))
                (windowEnd (flight_data 0 f))) as Hmax.
  set (m := fold_left Z.min _ _) in *.
  pose proof (Z.mul_div_le m FIVE_MINUTES_IN_SECONDS) as Hd.
  unfold FIVE_MINUTES_IN_SECONDS, TWO_HOURS in *. lia.
Qed.

Lemma grid_nonempty (flights : list CampaignFlight) :
  flights <> [] -> calculatePassengerGridData flights <> [].
Proof.
  intros Hne. rewrite grid_unfold by easy.
  apply for_each_5min_nonempty. now apply grid_range_ordered.
Qed.

End GridRange.

(** ** Statements about the series and the grid *)

Section Statements.
Context `{DateLib}.

(** C4: in every row of the grid of a non-empty list of flights, the
  [total] column is the sum of the row's per-flight columns (and such a
  grid has rows). *)
Theorem grid_total_is_sum_of_columns (flights : list CampaignFlight) :
flights <> [] ->
calculatePassengerGridData flights <> []
/\ Forall (fun row => total row = per_flight_sum row (length flights))
     (calculatePassengerGridData flights).
Proof.
intros Hne. split; [now apply grid_nonempty |].
apply grid_rows_Forall. intros t. apply grid_row_total.
Qed.

(** C5, as amended: for every selected flight with an anchor time and
  every grid instant [t], the cell of an arrival is [0] strictly before
  landing and otherwise the rounded arrival-dissipation model at [t];
  the cell of a departure is [0] strictly after departure and otherwise
  the rounded departure-accumulation model at [t]. *)
Theorem grid_cell_is_rounded_model
  (flights : list CampaignFlight) (i : nat) (f : CampaignFlight)
  (s : string) (row : PassengerGridRow) :
flights !! i = Some f ->
Js.or_str (actual_time_utc f) (scheduled_time_utc f) = Some s ->
s <> "" ->
In row (calculatePassengerGridData flights) ->
let t := row_time row in
let tAnchor := dayjs_unix s in
let N := pax_or_default f in
(is_arrival_type (lowered_type f) = true ->
 row_cells row !! column_key i =
 Some (if (t <? tAnchor)%Z then 0%Z
       else Js.Math_round
              (arrivalsExitLogNormal (IZR t) N (IZR tAnchor)
                 (IZR (tAnchor + NINETY_MINS_IN_SECONDS))
                 arrival_sigma arrival_medianFraction)))
/\ (is_departure_type (lowered_type f) = true ->
    row_cells row !! column_key i =
    Some (if (tAnchor <? t)%Z then 0%Z
          else Js.Math_round
                 (passengersLogNormal (IZR t) N
                    (IZR (departure_open tAnchor)) (IZR tAnchor)
                    departure_sigma departure_medianFraction))).
Proof.
intros Hi Hs Hne Hin. destruct (grid_rows_shape _ _ Hin) as [u ->].
cbn zeta. change (row_time (grid_row _ u)) with u.
rewrite (grid_row_cell flights i f u Hi).
pose proof (flight_data_anchor i f s Hs Hne) as Ha.
split; intros Hty.
- rewrite passengers_at_arrival by exact Hty. cbv zeta. rewrite Ha.
  destruct (u <? dayjs_unix s)%Z; [now rewrite Math_round_0 | reflexivity].
- rewrite passengers_at_other by (now apply departure_not_arrival).
  cbv zeta. rewrite Ha.
  destruct (dayjs_unix s <? u)%Z; [now rewrite Math_round_0 | reflexivity].
Qed.

(** C7: for every departure flight with an anchor time, the series is
  non-empty and its last point has time exactly [tDep] and passenger
  count exactly the rounded [N]; the series is the stepped points, with
  that point appended exactly when the stepping from the snapped window
  start does not land on [tDep]. *)
Theorem departure_series_ends_at_departure
  (flight : CampaignFlight) (s : string) :
Js.or_str (actual_time_utc flight) (scheduled_time_utc flight) = Some s ->
s <> "" ->
is_departure_type (lowered_type flight) = true ->
let tDep := dayjs_unix s in
let N := pax_or_default flight in
calculatePassengerDistribution flight <> []
/\ (exists p, last (calculatePassengerDistribution flight) = Some p
              /\ time p = tDep /\ passenger_count p = Js.Math_round N)
/\ calculatePassengerDistribution flight =
   (if decide ((tDep - departure_open tDep) mod FIVE_MINUTES_IN_SECONDS = 0)%Z
    then departure_steps flight tDep
    else departure_steps flight tDep ++ [point_at flight tDep N]).
Proof.
intros Hs Hne Hd. cbv zeta.
pose proof (distribution_departure_last flight s Hs Hne Hd) as Hlast.
split; [| split].
- intros E. rewrite E in Hlast. discriminate.
- eexists. split; [exact Hlast |]. split; reflexivity.
- now apply distribution_departure.
Qed.

(** C8, as amended: every point of the per-flight series carries a rounded
  passenger count that is never negative and never exceeds [N] rounded
  to the nearest integer, for every flight record with [N >= 0]. *)
Theorem series_counts_within_rounded_N (flight : CampaignFlight) :
0 <= pax_or_default flight ->
Forall (fun p => (0 <= passenger_count p
                  <= Js.Math_round (pax_or_default flight))%Z)
       (calculatePassengerDistribution flight).
Proof. apply distribution_bounds. Qed.

End Statements.

(** ** The statements on the sample data *)

Section Samples.
#[local] Existing Instance sample_dates.

Example column_key_12 : column_key 12 = "flight_12".
Proof. reflexivity. Qed.

Example lowered_type_sample_arrival :
  lowered_type sample_arrival = Some "arrival".
Proof. reflexivity. Qed.

Example utc_HHmm_noon : utc_HHmm (noon + 1500) = "12:25".
Proof. reflexivity. Qed.

Example departure_open_sample : departure_open (noon + 1500) = (noon - 10800)%Z.
Proof. reflexivity. Qed.

Example ceil_div_sample :
  (Js.ceil_div (noon + 1) FIVE_MINUTES_IN_SECONDS * FIVE_MINUTES_IN_SECONDS
   = noon + 300)%Z.
Proof. reflexivity. Qed.

Lemma sample_departure_range :
grid_startTime [sample_departure] = (noon - 10800)%Z
/\ grid_maxTime [sample_departure] = (noon + 7200)%Z.
Proof. split; reflexivity. Qed.

Lemma sample_cargo_range :
grid_startTime [sample_cargo] = (noon - 10800)%Z
/\ grid_maxTime [sample_cargo] = (noon + 7200)%Z.
Proof. split; reflexivity. Qed.

Lemma sample_untimed_range :
grid_startTime [sample_untimed] = (- 10800)%Z
/\ grid_maxTime [sample_untimed] = 7200%Z.
Proof. split; reflexivity. Qed.

Lemma sample_departure_row (k : nat) :
(k <= 60)%nat ->
In (grid_row (imap flight_data [sample_departure])
      (noon - 10800 + 300 * Z.of_nat k)%Z)
   (calculatePassengerGridData [sample_departure]).
Proof.
intros Hk. destruct sample_departure_range as [Hs He].
rewrite <- Hs. apply (grid_row_present [sample_departure] k); [easy |].
rewrite Hs, He. unfold FIVE_MINUTES_IN_SECONDS. lia.
Qed.

Lemma sample_cargo_row (k : nat) :
(k <= 60)%nat ->
In (grid_row (imap flight_data [sample_cargo])
      (noon - 10800 + 300 * Z.of_nat k)%Z)
   (calculatePassengerGridData [sample_cargo]).
Proof.
intros Hk. destruct sample_cargo_range as [Hs He].
rewrite <- Hs. apply (grid_row_present [sample_cargo] k); [easy |].
rewrite Hs, He. unfold FIVE_MINUTES_IN_SECONDS. lia.
Qed.

Lemma sample_untimed_row (k : nat) :
(k <= 60)%nat ->
In (grid_row (imap flight_data [sample_untimed])
      (- 10800 + 300 * Z.of_nat k)%Z)
   (calculatePassengerGridData [sample_untimed]).
Proof.
intros Hk. destruct sample_untimed_range as [Hs He].
rewrite <- Hs. apply (grid_row_present [sample_untimed] k); [easy |].
rewrite Hs, He. unfold FIVE_MINUTES_IN_SECONDS. lia.
Qed.

Lemma Math_round_99_5 : Js.Math_round 99.5 = 100%Z.
Proof. unfold Js.Math_round. apply Zfloor_eq. lra. Qed.

Lemma grid_total_is_sum_of_columns_witness :
calculatePassengerGridData [sample_departure] <> []
/\ Forall (fun row => total row = per_flight_sum row 1)
     (calculatePassengerGridData [sample_departure]).
Proof.
apply (grid_total_is_sum_of_columns [sample_departure]). discriminate.
Defined.

Lemma sample_pair_range :
  grid_startTime [sample_arrival; sample_departure] = (noon - 10800)%Z
  /\ grid_maxTime [sample_arrival; sample_departure] = (noon + 7200)%Z.
Proof. split; reflexivity. Qed.

Lemma sample_pair_row (k : nat) :
  (k <= 60)%nat ->
  In (grid_row (imap flight_data [sample_arrival; sample_departure])
        (noon - 10800 + 300 * Z.of_nat k)%Z)
     (calculatePassengerGridData [sample_arrival; sample_departure]).
Proof.
  intros Hk. destruct sample_pair_range as [Hs He].
  rewrite <- Hs.
  apply (grid_row_present [sample_arrival; sample_departure] k); [easy |].
  rewrite Hs, He. unfold FIVE_MINUTES_IN_SECONDS. lia.
Qed.

Lemma grid_cell_is_rounded_model_witness :
  let row := grid_row (imap flight_data [sample_arrival; sample_departure])
               (noon - 10800 + 300 * Z.of_nat 12)%Z in
  let t := row_time row in
  row_cells row !! column_key 0 =
  Some (if (t <? noon - 7200)%Z then 0%Z
        else Js.Math_round
               (arrivalsExitLogNormal (IZR t) 80 (IZR (noon - 7200))
                  (IZR (noon - 7200 + NINETY_MINS_IN_SECONDS))
                  arrival_sigma arrival_medianFraction))
  /\ row_cells row !! column_key 1 =
     Some (if (noon <? t)%Z then 0%Z
           else Js.Math_round
                  (passengersLogNormal (IZR t) 100
                     (IZR (departure_open noon)) (IZR noon)
                     departure_sigma departure_medianFraction)).
Proof.
  intros row t.
  assert (Hrow : In row (calculatePassengerGridData
                           [sample_arrival; sample_departure]))
    by (apply sample_pair_row; lia).
  assert (H80 : pax_or_default sample_arrival = 80)
    by (apply or_num_value; lra).
  split.
  - destruct (grid_cell_is_rounded_model [sample_arrival; sample_departure]
                0 sample_arrival "2024-01-01T10:00:00Z" row) as [Harr _];
      [reflexivity | reflexivity | discriminate | exact Hrow |].
    rewrite <- H80. apply Harr. reflexivity.
  - destruct (grid_cell_is_rounded_model [sample_arrival; sample_departure]
                1 sample_departure "2024-01-01T12:00:00Z" row) as [_ Hdep];
      [reflexivity | reflexivity | discriminate | exact Hrow |].
    apply Hdep. reflexivity.
Defined.

(** C5, counterexample to the unamended statement: five minutes after its departure the sample
  departure has a row whose cell is [0], where the departure
  accumulation model at that instant, rounded, is [100]. *)
Lemma grid_cell_after_departure_counterexample :
let row := grid_row (imap flight_data [sample_departure]) (noon + 300)%Z in
let model :=
  Js.Math_round
    (passengersLogNormal (IZR (row_time row))
       (pax_or_default sample_departure)
       (IZR (departure_open noon)) (IZR noon)
       departure_sigma departure_medianFraction) in
In row (calculatePassengerGridData [sample_departure])
/\ is_departure_type (lowered_type sample_departure) = true
/\ row_cells row !! column_key 0 = Some 0%Z
/\ model = 100%Z
/\ row_cells row !! column_key 0 <> Some model.
Proof.
cbv zeta.
assert (Hin : In (grid_row (imap flight_data [sample_departure]) (noon + 300)%Z)
                (calculatePassengerGridData [sample_departure])).
{ replace (noon + 300)%Z with (noon - 10800 + 300 * Z.of_nat 37)%Z by lia.
  apply sample_departure_row. lia. }
assert (Hcell : row_cells (grid_row (imap flight_data [sample_departure])
                             (noon + 300)%Z) !! column_key 0 = Some 0%Z).
{ rewrite (grid_row_cell [sample_departure] 0 sample_departure) by reflexivity.
  rewrite passengers_at_other by reflexivity. cbv zeta.
  rewrite (flight_data_anchor 0 sample_departure "2024-01-01T12:00:00Z")
    by (reflexivity || discriminate).
  change (dayjs_unix "2024-01-01T12:00:00Z") with noon.
  replace (noon <? noon + 300)%Z with true by (symmetry; apply Z.ltb_lt; lia).
  now rewrite Math_round_0. }
assert (Hmodel : Js.Math_round
          (passengersLogNormal (IZR (noon + 300))
             (pax_or_default sample_departure)
             (IZR (departure_open noon)) (IZR noon)
             departure_sigma departure_medianFraction) = 100%Z).
{ rewrite passengers_after.
  - apply (Math_round_IZR 100).
  - apply IZR_lt. pose proof (departure_open_lt noon). lia.
  - apply IZR_le. lia. }
change (row_time (grid_row _ (noon + 300)%Z)) with (noon + 300)%Z.
split; [exact Hin |]. split; [reflexivity |]. split; [exact Hcell |].
split; [exact Hmodel |]. rewrite Hcell, Hmodel. discriminate.
Qed.

(** C6 on the code: a flight of an unrecognized type and a flight without
  any timestamp give no points in the per-flight series, but in the
  grid each of them fills its column as a departure would: the row at
  the anchor instant (noon for the first, the epoch for the second)
  holds the full [100] passengers. *)
Theorem grid_counts_unrecognized_and_untimed_flights :
calculatePassengerDistribution sample_cargo = []
/\ (let row := grid_row (imap flight_data [sample_cargo]) noon in
    In row (calculatePassengerGridData [sample_cargo])
    /\ row_cells row !! column_key 0 = Some 100%Z)
/\ calculatePassengerDistribution sample_untimed = []
/\ (let row := grid_row (imap flight_data [sample_untimed]) 0%Z in
    In row (calculatePassengerGridData [sample_untimed])
    /\ row_cells row !! column_key 0 = Some 100%Z).
Proof.
cbv zeta. split; [| split; [split |]; [| | split; [| split]]].
- apply distribution_unrecognized; reflexivity.
- replace noon with (noon - 10800 + 300 * Z.of_nat 36)%Z by lia.
  apply sample_cargo_row. lia.
- rewrite (grid_row_cell [sample_cargo] 0 sample_cargo) by reflexivity.
  change noon with (tActual (flight_data 0 sample_cargo)).
  rewrite passengers_at_other_anchor by reflexivity.
  apply f_equal, (Math_round_IZR 100).
- apply distribution_untimed. reflexivity.
- change 0%Z with (- 10800 + 300 * Z.of_nat 36)%Z.
  apply sample_untimed_row. lia.
- rewrite (grid_row_cell [sample_untimed] 0 sample_untimed) by reflexivity.
  change 0%Z with (tActual (flight_data 0 sample_untimed)) at 1.
  rewrite passengers_at_other_anchor by reflexivity.
  apply f_equal, (Math_round_IZR 100).
Qed.

Lemma departure_series_ends_at_departure_witness :
exists p, last (calculatePassengerDistribution sample_departure) = Some p
          /\ time p = noon /\ passenger_count p = Js.Math_round 100.
Proof.
destruct (departure_series_ends_at_departure sample_departure
            "2024-01-01T12:00:00Z") as (_ & Hlast & _).
- reflexivity.
- discriminate.
- reflexivity.
- exact Hlast.
Defined.

Lemma series_counts_within_rounded_N_witness :
Forall (fun p => (0 <= passenger_count p <= Js.Math_round 100)%Z)
       (calculatePassengerDistribution sample_departure).
Proof.
apply (series_counts_within_rounded_N sample_departure).
unfold pax_or_default. simpl. lra.
Defined.

(** C8, counterexample to the unamended statement: for a departure with the estimate [99.5] the last
  point of the series carries [100] passengers, more than [N]. *)
Lemma series_count_exceeds_fractional_N_counterexample :
0 <= pax_or_default sample_fractional
/\ exists p, In p (calculatePassengerDistribution sample_fractional)
             /\ passenger_count p = 100%Z
             /\ IZR (passenger_count p) > pax_or_default sample_fractional.
Proof.
assert (HN : pax_or_default sample_fractional = 99.5)
  by (apply or_num_value; lra).
split; [rewrite HN; lra |].
pose proof (distribution_departure_last sample_fractional
              "2024-01-01T12:00:00Z") as Hlast.
specialize (Hlast eq_refl). specialize (Hlast ltac:(discriminate) eq_refl).
exists (point_at sample_fractional noon (pax_or_default sample_fractional)).
split; [| split].
- apply list_elem_of_In. apply last_Some_elem_of. exact Hlast.
- cbn [passenger_count point_at]. rewrite HN. apply Math_round_99_5.
- cbn [passenger_count point_at]. rewrite HN, Math_round_99_5. lra.
Qed.

End Samples.

(** * Further properties of the estimator *)

(** ** The instants visited by the five-minute loop *)

Lemma step_instants_S (start : Z) (n : nat) :
  step_instants start (S n)
  = start :: step_instants (start + FIVE_MINUTES_IN_SECONDS) n.
Proof.
  unfold step_instants. cbn [seq map]. f_equal; [lia |].
  rewrite <- seq_shift, map_map. apply map_ext. intros k.
  unfold FIVE_MINUTES_IN_SECONDS. lia.
Qed.

Lemma step_count_done (start stop : Z) :
  (stop < start)%Z -> step_count start stop = 0%nat.
Proof.
  intros Hlt. unfold step_count, FIVE_MINUTES_IN_SECONDS.
  assert ((stop - start) / 300 < 0)%Z by (apply Z.div_lt_upper_bound; lia).
  lia.
Qed.

Lemma step_count_step (start stop : Z) :
  (start <= stop)%Z ->
  step_count start stop
  = S (step_count (start + FIVE_MINUTES_IN_SECONDS) stop).
Proof.
  intros Hle. unfold step_count, FIVE_MINUTES_IN_SECONDS.
  replace (stop - start)%Z with ((stop - (start + 300)) + 1 * 300)%Z by lia.
  rewrite Z.div_add by lia.
  assert (-1 <= (stop - (start + 300)) / 300)%Z
    by (apply Z.div_le_lower_bound; lia).
  lia.
Qed.

Lemma for_each_5min_instants {A : Type} (body : Z -> A) (start stop : Z) :
  for_each_5min body start stop
  = map body (step_instants start (step_count start stop)).
Proof.
  revert start.
  apply (for_each_5min_ind body stop
           (fun t l => l = map body (step_instants t (step_count t stop)))).
  - intros t Hgt. now rewrite step_count_done.
  - intros t l Hle ->. now rewrite (step_count_step t stop), step_instants_S.
Qed.

Lemma step_instants_In (start : Z) (n : nat) (t : Z) :
  In t (step_instants start n) <->
  exists k, (k < n)%nat /\ t = (start + FIVE_MINUTES_IN_SECONDS * Z.of_nat k)%Z.
Proof.
  unfold step_instants. rewrite in_map_iff. split.
  - intros (k & <- & Hk). apply in_seq in Hk. exists k. split; [lia | easy].
  - intros (k & Hk & ->). exists k. split; [easy |]. apply in_seq. lia.
Qed.

Lemma step_instants_sorted (start : Z) (n : nat) :
  StronglySorted Z.lt (step_instants start n).
Proof.
  revert start. induction n as [| n IH]; intros start.
  - constructor.
  - rewrite step_instants_S. constructor; [apply IH |].
    apply List.Forall_forall. intros t Ht.
    apply step_instants_In in Ht as (k & _ & ->).
    unfold FIVE_MINUTES_IN_SECONDS. lia.
Qed.

Lemma step_instants_length (start : Z) (n : nat) :
  length (step_instants start n) = n.
Proof. unfold step_instants. now rewrite length_map, length_seq. Qed.

(** The instants of the loop lie in its range, a whole number of steps
    after its start. *)
Lemma step_instants_range (start stop t : Z) :
  In t (step_instants start (step_count start stop)) <->
  (start <= t <= stop)%Z /\ ((t - start) mod FIVE_MINUTES_IN_SECONDS = 0)%Z.
Proof.
  rewrite step_instants_In. unfold step_count, FIVE_MINUTES_IN_SECONDS. split.
  - intros (k & Hk & ->).
    assert (Hq : (Z.of_nat k <= (stop - start) / 300)%Z) by lia.
    assert (300 * ((stop - start) / 300) <= stop - start)%Z
      by (apply Z.mul_div_le; lia).
    split; [lia |].
    replace (start + 300 * Z.of_nat k - start)%Z with (Z.of_nat k * 300)%Z by lia.
    apply Z_mod_mult.
  - intros [[Hlo Hhi] Hmod].
    exists (Z.to_nat ((t - start) / 300)).
    assert (Hdiv : (t - start = 300 * ((t - start) / 300))%Z)
      by (apply Z_div_exact_full_2; lia).
    assert (0 <= (t - start) / 300)%Z by (apply Z.div_pos; lia).
    assert ((t - start) / 300 <= (stop - start) / 300)%Z
      by (apply Z.div_le_mono; lia).
    split; lia.
Qed.

(** ** The shape of the per-flight series *)

Lemma arrival_start_bounds (tLand : Z) :
  (tLand <= arrival_start tLand < tLand + FIVE_MINUTES_IN_SECONDS)%Z
  /\ (arrival_start tLand mod FIVE_MINUTES_IN_SECONDS = 0)%Z.
Proof.
  unfold arrival_start, Js.ceil_div, FIVE_MINUTES_IN_SECONDS.
  pose proof (Z.mul_div_le (- tLand) 300 ltac:(lia)).
  pose proof (Z.mul_succ_div_gt (- tLand) 300 ltac:(lia)).
  split; [lia | apply Z_mod_mult].
Qed.

Lemma arrival_start_aligned (tLand : Z) :
  (tLand mod FIVE_MINUTES_IN_SECONDS = 0)%Z -> arrival_start tLand = tLand.
Proof.
  intros Hm. destruct (arrival_start_bounds tLand) as [Hb Ha].
  unfold FIVE_MINUTES_IN_SECONDS in *.
  assert (Hd : ((arrival_start tLand - tLand) mod 300 = 0)%Z)
    by (rewrite Zminus_mod, Ha, Hm; reflexivity).
  rewrite Z.mod_small in Hd by lia. lia.
Qed.

Lemma arrival_start_unaligned (tLand : Z) :
  (tLand mod FIVE_MINUTES_IN_SECONDS <> 0)%Z -> (tLand < arrival_start tLand)%Z.
Proof.
  intros Hm. destruct (arrival_start_bounds tLand) as [Hb Ha].
  assert (arrival_start tLand <> tLand) by (intros E; rewrite E in Ha; easy).
  lia.
Qed.

Lemma arrival_step_count (tLand : Z) :
  step_count (arrival_start tLand) (tLand + NINETY_MINS_IN_SECONDS)
  = if decide (tLand mod FIVE_MINUTES_IN_SECONDS = 0)%Z then 19%nat else 18%nat.
Proof.
  unfold step_count, NINETY_MINS_IN_SECONDS.
  destruct (decide _) as [Hm | Hm].
  - rewrite arrival_start_aligned by easy. unfold FIVE_MINUTES_IN_SECONDS.
    replace (tLand + 90 * 60 - tLand)%Z with (18 * 300)%Z by lia.
    rewrite Z_div_mult by lia. reflexivity.
  - pose proof (arrival_start_unaligned tLand Hm).
    destruct (arrival_start_bounds tLand) as [Hb _].
    unfold FIVE_MINUTES_IN_SECONDS in *.
    assert ((tLand + 90 * 60 - arrival_start tLand) / 300 = 17)%Z
      by (symmetry;
          apply Z.div_unique with (r := (tLand + 90 * 60 - arrival_start tLand
                                         - 300 * 17)%Z); lia).
    lia.
Qed.

Lemma departure_open_aligned (tDep : Z) :
  (departure_open tDep mod FIVE_MINUTES_IN_SECONDS = 0)%Z.
Proof.
  unfold departure_open, THREE_HOURS_IN_SECONDS, SECONDS_IN_HOUR,
    FIVE_MINUTES_IN_SECONDS.
  pose proof (Z.quot_rem' (tDep - 3 * 3600) 3600) as E.
  replace (tDep - 3 * 3600 - Z.rem (tDep - 3 * 3600) 3600)%Z
    with ((12 * Z.quot (tDep - 3 * 3600) 3600) * 300)%Z by lia.
  apply Z_mod_mult.
Qed.

Lemma StronglySorted_snoc {A : Type} (R : A -> A -> Prop) (l : list A) (a : A) :
  StronglySorted R l -> Forall (fun x => R x a) l -> StronglySorted R (l ++ [a]).
Proof.
  induction l as [| x l IH]; intros Hs Hall; simpl.
  - repeat constructor.
  - apply StronglySorted_inv in Hs as [Hs Hx].
    apply Forall_inv_tail in Hall as Hall'. apply Forall_inv in Hall.
    constructor; [now apply IH |].
    apply Forall_app. split; [exact Hx | now constructor].
Qed.

Lemma StronglySorted_map_mono {A : Type} (R : A -> A -> Prop) (g : Z -> A)
    (l : list Z) :
  (forall a b, (a <= b)%Z -> R (g a) (g b)) ->
  StronglySorted Z.lt l -> StronglySorted R (map g l).
Proof.
  intros Hg. induction 1 as [| a l Hs IH Ha]; simpl; constructor; [easy |].
  apply List.Forall_forall. intros y Hy. apply in_map_iff in Hy as (b & <- & Hb).
  apply Hg. rewrite List.Forall_forall in Ha. specialize (Ha b Hb). lia.
Qed.

Section SeriesShape.
Context `{DateLib}.

Lemma distribution_arrival (flight : CampaignFlight) (s : string) :
  Js.or_str (actual_time_utc flight) (scheduled_time_utc flight) = Some s ->
  s <> "" ->
  is_arrival_type (lowered_type flight) = true ->
  calculatePassengerDistribution flight = arrival_steps flight (dayjs_unix s).
Proof.
  intros Hs Hne Ha. unfold calculatePassengerDistribution.
  rewrite Hs. destruct s as [| c s]; [easy |].
  cbv zeta. rewrite Ha. reflexivity.
Qed.

(** The series of a flight is empty, the loop of an arrival, or the series
    of a departure. *)
Lemma distribution_cases (flight : CampaignFlight) :
  calculatePassengerDistribution flight = []
  \/ (exists s,
        Js.or_str (actual_time_utc flight) (scheduled_time_utc flight) = Some s
        /\ s <> "" /\ is_arrival_type (lowered_type flight) = true)
  \/ (exists s,
        Js.or_str (actual_time_utc flight) (scheduled_time_utc flight) = Some s
        /\ s <> "" /\ is_departure_type (lowered_type flight) = true).
Proof.
  destruct (Js.or_str (actual_time_utc flight) (scheduled_time_utc flight))
    as [s |] eqn:Hs.
  - destruct s as [| c s].
    + left. apply distribution_untimed. now rewrite Hs.
    + destruct (is_arrival_type (lowered_type flight)) eqn:Ha.
      * right. left. now exists (String c s).
      * destruct (is_departure_type (lowered_type flight)) eqn:Hd.
        -- right. right. now exists (String c s).
        -- left. now apply distribution_unrecognized.
  - left. apply distribution_untimed. now rewrite Hs.
Qed.

Lemma points_times (flight : CampaignFlight) (g : Z -> R) (l : list Z) :
  map time (map (fun t => point_at flight t (g t)) l) = l.
Proof. rewrite map_map. cbn [time point_at]. apply map_id. Qed.

Lemma points_counts (flight : CampaignFlight) (g : Z -> R) (l : list Z) :
  map passenger_count (map (fun t => point_at flight t (g t)) l)
  = map (fun t => Js.Math_round (g t)) l.
Proof. now rewrite map_map. Qed.

Lemma arrival_steps_times (flight : CampaignFlight) (tLand : Z) :
  map time (arrival_steps flight tLand)
  = step_instants (arrival_start tLand)
      (if decide (tLand mod FIVE_MINUTES_IN_SECONDS = 0)%Z then 19 else 18).
Proof.
  unfold arrival_steps. rewrite for_each_5min_instants, arrival_step_count.
  apply (points_times flight
           (fun t => arrivalsExitLogNormal (IZR t) (pax_or_default flight)
                       (IZR tLand) (IZR (tLand + NINETY_MINS_IN_SECONDS))
                       arrival_sigma arrival_medianFraction)).
Qed.

Lemma departure_steps_times (flight : CampaignFlight) (tDep : Z) :
  map time (departure_steps flight tDep)
  = step_instants (departure_open tDep)
      (step_count (departure_open tDep) tDep).
Proof.
  unfold departure_steps. rewrite for_each_5min_instants.
  apply (points_times flight
           (fun t => passengersLogNormal (IZR t) (pax_or_default flight)
                       (IZR (departure_open tDep)) (IZR tDep)
                       departure_sigma departure_medianFraction)).
Qed.

End SeriesShape.

Section SeriesStatements.
Context `{DateLib}.

Lemma departure_steps_before (flight : CampaignFlight) (tDep : Z) :
  ((tDep - departure_open tDep) mod FIVE_MINUTES_IN_SECONDS <> 0)%Z ->
  Forall (fun t => (t < tDep)%Z) (map time (departure_steps flight tDep)).
Proof.
  intros Hm. rewrite departure_steps_times. apply List.Forall_forall.
  intros t Ht. apply step_instants_range in Ht as [[_ Hhi] Hmod].
  assert (t <> tDep) by (intros ->; easy). lia.
Qed.

(** X6: the points of every per-flight series are in strictly increasing
    time order, whatever the flight. *)
Theorem series_times_increasing (flight : CampaignFlight) :
  StronglySorted Z.lt (map time (calculatePassengerDistribution flight)).
Proof.
  destruct (distribution_cases flight)
    as [-> | [(s & Hs & Hne & Ha) | (s & Hs & Hne & Hd)]].
  - constructor.
  - rewrite (distribution_arrival flight s Hs Hne Ha), arrival_steps_times.
    apply step_instants_sorted.
  - rewrite (distribution_departure flight s Hs Hne Hd).
    destruct (decide _) as [E | E].
    + rewrite departure_steps_times. apply step_instants_sorted.
    + rewrite map_app. apply StronglySorted_snoc.
      * rewrite departure_steps_times. apply step_instants_sorted.
      * now apply departure_steps_before.
Qed.

(** X7: the series of an arrival with an anchor time has 19 points when
    the landing time is a multiple of five minutes and 18 otherwise; its
    points are five minutes apart, start at the first five-minute boundary
    at or after landing, and all lie within the ninety-minute window. *)
Theorem arrival_series_instants (flight : CampaignFlight) (s : string) :
  Js.or_str (actual_time_utc flight) (scheduled_time_utc flight) = Some s ->
  s <> "" ->
  is_arrival_type (lowered_type flight) = true ->
  let tLand := dayjs_unix s in
  map time (calculatePassengerDistribution flight)
  = step_instants (arrival_start tLand)
      (if decide (tLand mod FIVE_MINUTES_IN_SECONDS = 0)%Z then 19 else 18)
  /\ (tLand <= arrival_start tLand < tLand + FIVE_MINUTES_IN_SECONDS)%Z
  /\ Forall (fun p => (tLand <= time p <= tLand + NINETY_MINS_IN_SECONDS)%Z
                      /\ (time p mod FIVE_MINUTES_IN_SECONDS = 0)%Z)
       (calculatePassengerDistribution flight).
Proof.
  intros Hs Hne Ha tLand.
  pose proof (arrival_start_bounds tLand) as [Hb Hal].
  rewrite (distribution_arrival flight s Hs Hne Ha).
  fold tLand. split; [apply arrival_steps_times | split; [exact Hb |]].
  apply List.Forall_forall. intros p Hp.
  assert (Ht : In (time p) (map time (arrival_steps flight tLand)))
    by now apply in_map.
  unfold arrival_steps in Ht.
  rewrite for_each_5min_instants, points_times in Ht.
  apply step_instants_range in Ht as [[Hlo Hhi] Hmod].
  split; [lia |].
  unfold FIVE_MINUTES_IN_SECONDS in *.
  replace (time p) with ((time p - arrival_start tLand) + arrival_start tLand)%Z
    by lia.
  now rewrite Zplus_mod, Hmod, Hal.
Qed.

(** X8: when the landing time is a multiple of five minutes, the series of
    an arrival starts at the landing instant with the rounded [N] and ends
    at landing plus ninety minutes with [0]; otherwise every point lies
    strictly inside the window, so neither instant is sampled. *)
Theorem arrival_series_endpoints (flight : CampaignFlight) (s : string) :
  Js.or_str (actual_time_utc flight) (scheduled_time_utc flight) = Some s ->
  s <> "" ->
  is_arrival_type (lowered_type flight) = true ->
  let tLand := dayjs_unix s in
  let series := calculatePassengerDistribution flight in
  ((tLand mod FIVE_MINUTES_IN_SECONDS = 0)%Z ->
   (exists p, head series = Some p /\ time p = tLand
              /\ passenger_count p = Js.Math_round (pax_or_default flight))
   /\ (exists p, last series = Some p
                 /\ time p = (tLand + NINETY_MINS_IN_SECONDS)%Z
                 /\ passenger_count p = 0%Z))
  /\ ((tLand mod FIVE_MINUTES_IN_SECONDS <> 0)%Z ->
      Forall (fun p => (tLand < time p < tLand + NINETY_MINS_IN_SECONDS)%Z)
        series).
Proof.
  intros Hs Hne Ha tLand series. subst series.
  rewrite (distribution_arrival flight s Hs Hne Ha). fold tLand.
  split; intros Hm.
  - unfold arrival_steps. rewrite (arrival_start_aligned tLand Hm).
    assert (Hle : (tLand <= tLand + NINETY_MINS_IN_SECONDS)%Z)
      by (unfold NINETY_MINS_IN_SECONDS; lia).
    split.
    + rewrite for_each_5min_in_range by exact Hle.
      eexists. split; [reflexivity |]. split; [reflexivity |].
      cbn [passenger_count point_at]. f_equal.
      apply arrivals_before. lra.
    + rewrite for_each_5min_last by exact Hle.
      replace ((tLand + NINETY_MINS_IN_SECONDS - tLand)
                 mod FIVE_MINUTES_IN_SECONDS)%Z with 0%Z
        by (unfold NINETY_MINS_IN_SECONDS, FIVE_MINUTES_IN_SECONDS;
            replace (tLand + 90 * 60 - tLand)%Z with (18 * 300)%Z by lia;
            now rewrite Z_mod_mult).
      rewrite Z.sub_0_r.
      eexists. split; [reflexivity |]. split; [reflexivity |].
      cbn [passenger_count point_at]. rewrite arrivals_after.
      * apply Math_round_0.
      * apply IZR_lt. unfold NINETY_MINS_IN_SECONDS. lia.
      * lra.
  - apply List.Forall_forall. intros p Hp.
    assert (Ht : In (time p) (map time (arrival_steps flight tLand)))
      by now apply in_map.
    unfold arrival_steps in Ht.
    rewrite for_each_5min_instants, points_times in Ht.
    apply step_instants_range in Ht as [[Hlo Hhi] Hmod].
    pose proof (arrival_start_unaligned tLand Hm) as Hgt.
    pose proof (arrival_start_bounds tLand) as [Hb Hal].
    assert (time p <> tLand + NINETY_MINS_IN_SECONDS)%Z.
    { intros E. apply Hm.
      unfold NINETY_MINS_IN_SECONDS, FIVE_MINUTES_IN_SECONDS in *.
      replace tLand
        with ((time p - arrival_start tLand) + (arrival_start tLand + (-18) * 300))%Z
        by lia.
      rewrite Zplus_mod, Hmod, Z_mod_plus_full, Hal. reflexivity. }
    lia.
Qed.

(** X9: the series of a departure with an anchor time starts at the
    snapped window start with [0] passengers, and all its points lie
    between that instant and the departure. *)
Theorem departure_series_start (flight : CampaignFlight) (s : string) :
  Js.or_str (actual_time_utc flight) (scheduled_time_utc flight) = Some s ->
  s <> "" ->
  is_departure_type (lowered_type flight) = true ->
  let tDep := dayjs_unix s in
  let series := calculatePassengerDistribution flight in
  (exists p, head series = Some p /\ time p = departure_open tDep
             /\ passenger_count p = 0%Z)
  /\ Forall (fun p => (departure_open tDep <= time p <= tDep)%Z) series.
Proof.
  intros Hs Hne Hd tDep series. subst series.
  rewrite (distribution_departure flight s Hs Hne Hd). fold tDep.
  pose proof (departure_open_lt tDep) as Hlt.
  assert (Hhead : exists p, head (departure_steps flight tDep) = Some p
                            /\ time p = departure_open tDep
                            /\ passenger_count p = 0%Z).
  { unfold departure_steps. rewrite for_each_5min_in_range by lia.
    eexists. split; [reflexivity |]. split; [reflexivity |].
    cbn [passenger_count point_at]. rewrite passengers_before by lra.
    apply Math_round_0. }
  assert (Hsteps : Forall (fun p => (departure_open tDep <= time p <= tDep)%Z)
                     (departure_steps flight tDep)).
  { apply List.Forall_forall. intros p Hp.
    assert (Ht : In (time p) (map time (departure_steps flight tDep)))
      by now apply in_map.
    rewrite departure_steps_times in Ht.
    now apply step_instants_range in Ht as [Hr _]. }
  destruct (decide _) as [E | E].
  - split; [exact Hhead | exact Hsteps].
  - split.
    + destruct Hhead as (p & Hp & Hrest).
      exists p. split; [| exact Hrest].
      destruct (departure_steps flight tDep); [discriminate | exact Hp].
    + apply Forall_app. split; [exact Hsteps |].
      constructor; [| constructor]. cbn [time point_at]. lia.
Qed.

End SeriesStatements.

Section SeriesMonotone.
Context `{DateLib}.

Lemma departure_steps_counts_sorted (flight : CampaignFlight) (tDep : Z) :
  0 <= pax_or_default flight ->
  StronglySorted Z.le (map passenger_count (departure_steps flight tDep)).
Proof.
  intros HN. unfold departure_steps.
  rewrite for_each_5min_instants.
  rewrite (points_counts flight
             (fun t => passengersLogNormal (IZR t) (pax_or_default flight)
                         (IZR (departure_open tDep)) (IZR tDep)
                         departure_sigma departure_medianFraction)).
  apply StronglySorted_map_mono; [| apply step_instants_sorted].
  intros a b Hab. apply Math_round_mono. apply passengers_mono;
    [easy | unfold departure_sigma; lra | now apply IZR_le].
Qed.

Lemma departure_steps_counts_bounded (flight : CampaignFlight) (tDep : Z) :
  0 <= pax_or_default flight ->
  Forall (fun c => (c <= Js.Math_round (pax_or_default flight))%Z)
    (map passenger_count (departure_steps flight tDep)).
Proof.
  intros HN. unfold departure_steps. rewrite for_each_5min_instants.
  rewrite (points_counts flight
             (fun t => passengersLogNormal (IZR t) (pax_or_default flight)
                         (IZR (departure_open tDep)) (IZR tDep)
                         departure_sigma departure_medianFraction)).
  apply List.Forall_forall. intros c Hc.
  apply in_map_iff in Hc as (t & <- & _). apply Math_round_mono.
  apply passengers_range; [easy | unfold departure_sigma; lra].
Qed.

(** X10: for a flight with [N >= 0], the rounded counts along the series
    never increase for an arrival and never decrease for a departure. *)
Theorem series_counts_monotone (flight : CampaignFlight) :
  0 <= pax_or_default flight ->
  (is_arrival_type (lowered_type flight) = true ->
   StronglySorted Z.ge
     (map passenger_count (calculatePassengerDistribution flight)))
  /\ (is_departure_type (lowered_type flight) = true ->
      StronglySorted Z.le
        (map passenger_count (calculatePassengerDistribution flight))).
Proof.
  intros HN. split; intros Hty.
  - destruct (distribution_cases flight)
      as [-> | [(s & Hs & Hne & Ha) | (s & Hs & Hne & Hd)]].
    + constructor.
    + rewrite (distribution_arrival flight s Hs Hne Ha).
      unfold arrival_steps. rewrite for_each_5min_instants.
      rewrite (points_counts flight
                 (fun t => arrivalsExitLogNormal (IZR t) (pax_or_default flight)
                             (IZR (dayjs_unix s))
                             (IZR (dayjs_unix s + NINETY_MINS_IN_SECONDS))
                             arrival_sigma arrival_medianFraction)).
      apply StronglySorted_map_mono; [| apply step_instants_sorted].
      intros a b Hab. apply Z.le_ge, Math_round_mono. apply arrivals_antitone;
        [easy | unfold arrival_sigma; lra | now apply IZR_le].
    + rewrite (departure_not_arrival _ Hd) in Hty. discriminate.
  - destruct (distribution_cases flight)
      as [-> | [(s & Hs & Hne & Ha) | (s & Hs & Hne & Hd)]].
    + constructor.
    + rewrite (departure_not_arrival _ Hty) in Ha. discriminate.
    + rewrite (distribution_departure flight s Hs Hne Hd).
      destruct (decide _) as [E | E].
      * now apply departure_steps_counts_sorted.
      * rewrite map_app. apply StronglySorted_snoc.
        -- now apply departure_steps_counts_sorted.
        -- now apply departure_steps_counts_bounded.
Qed.

End SeriesMonotone.

(** ** The rows of the grid *)

Lemma fold_min_le_elem (l : list Z) (a x : Z) :
  In x l -> (fold_left Z.min l a <= x)%Z.
Proof.
  revert a. induction l as [| y l IH]; intros a Hin; [easy |].
  simpl. destruct Hin as [-> | Hin].
  - pose proof (fold_min_le l (Z.min a x)). lia.
  - now apply IH.
Qed.

Lemma fold_max_ge_elem (l : list Z) (a x : Z) :
  In x l -> (x <= fold_left Z.max l a)%Z.
Proof.
  revert a. induction l as [| y l IH]; intros a Hin; [easy |].
  simpl. destruct Hin as [-> | Hin].
  - pose proof (fold_max_ge l (Z.max a x)). lia.
  - now apply IH.
Qed.

Lemma Math_min_le_elem (l : list Z) (x : Z) :
  In x l -> (Js.Math_min l <= x)%Z.
Proof.
  destruct l as [| a l]; [easy |]. intros [-> | Hin]; simpl.
  - apply fold_min_le.
  - now apply fold_min_le_elem.
Qed.

Lemma Math_max_ge_elem (l : list Z) (x : Z) :
  In x l -> (x <= Js.Math_max l)%Z.
Proof.
  destruct l as [| a l]; [easy |]. intros [-> | Hin]; simpl.
  - apply fold_max_ge.
  - now apply fold_max_ge_elem.
Qed.

Section GridRows.
Context `{DateLib}.

Lemma flight_data_In (flights : list CampaignFlight) (i : nat)
    (f : CampaignFlight) :
  flights !! i = Some f -> In (flight_data i f) (imap flight_data flights).
Proof.
  intros Hi. apply list_elem_of_In.
  apply (list_elem_of_lookup_2 _ i). now rewrite list_lookup_imap, Hi.
Qed.

Lemma grid_startTime_aligned (flights : list CampaignFlight) :
  (grid_startTime flights mod FIVE_MINUTES_IN_SECONDS = 0)%Z.
Proof. unfold grid_startTime. apply Z_mod_mult. Qed.

(** The grid covers the window of each of its flights, and two more
    hours. *)
Lemma grid_covers_window (flights : list CampaignFlight) (i : nat)
    (f : CampaignFlight) :
  flights !! i = Some f ->
  (grid_startTime flights <= windowStart (flight_data i f))%Z
  /\ (windowEnd (flight_data i f) + TWO_HOURS <= grid_maxTime flights)%Z.
Proof.
  intros Hi. pose proof (flight_data_In flights i f Hi) as Hin.
  unfold grid_startTime, grid_maxTime, Js.floor_div. split.
  - pose proof (Math_min_le_elem (map windowStart (imap flight_data flights))
                  (windowStart (flight_data i f))
                  (in_map windowStart _ _ Hin)) as Hmin.
    set (m := Js.Math_min _) in *.
    pose proof (Z.mul_div_le m FIVE_MINUTES_IN_SECONDS) as Hd.
    unfold FIVE_MINUTES_IN_SECONDS in *. lia.
  - pose proof (Math_max_ge_elem (map windowEnd (imap flight_data flights))
                  (windowEnd (flight_data i f))
                  (in_map windowEnd _ _ Hin)) as Hmax.
    lia.
Qed.

Lemma grid_instants (flights : list CampaignFlight) :
  flights <> [] ->
  calculatePassengerGridData flights
  = map (grid_row (imap flight_data flights))
      (step_instants (grid_startTime flights)
         (step_count (grid_startTime flights) (grid_maxTime flights))).
Proof.
  intros Hne. rewrite grid_unfold by easy. apply for_each_5min_instants.
Qed.

(** A five-minute boundary within the range of the grid has a row. *)
Lemma grid_row_at (flights : list CampaignFlight) (t : Z) :
  flights <> [] ->
  (grid_startTime flights <= t <= grid_maxTime flights)%Z ->
  (t mod FIVE_MINUTES_IN_SECONDS = 0)%Z ->
  In (grid_row (imap flight_data flights) t)
     (calculatePassengerGridData flights).
Proof.
  intros Hne Hr Hm. rewrite grid_instants by easy. apply in_map.
  apply step_instants_range. split; [exact Hr |].
  pose proof (grid_startTime_aligned flights) as Ha.
  unfold FIVE_MINUTES_IN_SECONDS in *. now rewrite Zminus_mod, Hm, Ha.
Qed.

(** X11: the rows of the grid of a non-empty selection are five minutes
    apart, from the start time (a multiple of five minutes) up to the
    maximum time, in increasing order; there are at least 25 of them
    because of the two-hour buffer. *)
Theorem grid_row_times (flights : list CampaignFlight) :
  flights <> [] ->
  let start := grid_startTime flights in
  let rows := calculatePassengerGridData flights in
  map row_time rows
  = step_instants start (step_count start (grid_maxTime flights))
  /\ (start mod FIVE_MINUTES_IN_SECONDS = 0)%Z
  /\ StronglySorted Z.lt (map row_time rows)
  /\ (25 <= length rows)%nat.
Proof.
  intros Hne start rows. subst rows.
  assert (Htimes : map row_time (calculatePassengerGridData flights)
                   = step_instants start (step_count start (grid_maxTime flights))).
  { rewrite grid_instants by easy. rewrite map_map. cbn [row_time grid_row].
    apply map_id. }
  split; [exact Htimes |]. split; [apply grid_startTime_aligned |].
  split; [rewrite Htimes; apply step_instants_sorted |].
  rewrite <- (length_map row_time), Htimes, step_instants_length.
  destruct flights as [| f l]; [easy |].
  destruct (grid_covers_window (f :: l) 0 f eq_refl) as [Hlo Hhi].
  pose proof (window_ordered 0 f) as Hw.
  unfold step_count, FIVE_MINUTES_IN_SECONDS, TWO_HOURS in *.
  fold start in Hlo.
  assert (24 <= (grid_maxTime (f :: l) - start) / 300)%Z
    by (apply Z.div_le_lower_bound; lia).
  lia.
Qed.

Lemma grid_row_keys (flights : list CampaignFlight) (t : Z) (k : string) :
  is_Some (row_cells (grid_row (imap flight_data flights) t) !! k)
  <-> exists i, (i < length flights)%nat /\ k = column_key i.
Proof.
  split.
  - intros Hsome.
    destruct (in_dec string_dec k (map columnKey (imap flight_data flights)))
      as [Hin | Hnot].
    + rewrite flight_data_keys in Hin. apply in_map_iff in Hin as (i & <- & Hi).
      apply in_seq in Hi. exists i. split; [lia | reflexivity].
    + unfold grid_row in Hsome. cbn [row_cells] in Hsome.
      rewrite fold_add_flight_other in Hsome by exact Hnot.
      cbn [fst] in Hsome. rewrite lookup_empty in Hsome.
      now destruct Hsome.
  - intros (i & Hi & ->).
    destruct (lookup_lt_is_Some_2 flights i Hi) as [f Hf].
    rewrite (grid_row_cell flights i f t Hf). now eexists.
Qed.

(** X12: every row of the grid has exactly one flight column per selected
    flight: the keys present are the [flight_<i>] with [i] below the number
    of flights, and no other. *)
Theorem grid_row_columns (flights : list CampaignFlight)
    (row : PassengerGridRow) (k : string) :
  In row (calculatePassengerGridData flights) ->
  (is_Some (row_cells row !! k)
   <-> exists i, (i < length flights)%nat /\ k = column_key i).
Proof.
  intros Hin. destruct (grid_rows_shape _ _ Hin) as [t ->].
  apply grid_row_keys.
Qed.

End GridRows.

(** ** Bounds on the cells and totals of the grid *)

Lemma sum_imap_bounds {A : Type} (g : nat -> A -> Z) (lo hi : A -> Z)
    (l : list A) :
  (forall i x, l !! i = Some x -> (lo x <= g i x <= hi x)%Z) ->
  (foldr Z.add 0%Z (map lo l) <= foldr Z.add 0%Z (imap g l)
   <= foldr Z.add 0%Z (map hi l))%Z.
Proof.
  revert g. induction l as [| x l IH]; intros g Hb; simpl; [lia |].
  specialize (IH (g ∘ S) (fun i y Hy => Hb (S i) y Hy)).
  specialize (Hb 0%nat x eq_refl). lia.
Qed.

Lemma sum_zeros {A : Type} (l : list A) :
  foldr Z.add 0%Z (map (fun _ => 0%Z) l) = 0%Z.
Proof. induction l as [| x l IH]; simpl; lia. Qed.

Section GridBounds.
Context `{DateLib}.

Lemma passengers_at_range (i : nat) (f : CampaignFlight) (t : Z) :
  0 <= pax_or_default f ->
  0 <= passengers_at (flight_data i f) t <= pax_or_default f.
Proof.
  intros HN. destruct (is_arrival_type (lowered_type f)) eqn:Ha.
  - rewrite passengers_at_arrival by exact Ha. cbv zeta.
    destruct (_ <? _)%Z; [lra |].
    apply arrivals_range; [easy | unfold arrival_sigma; lra].
  - rewrite passengers_at_other by exact Ha. cbv zeta.
    destruct (_ <? _)%Z; [lra |].
    apply passengers_range; [easy | unfold departure_sigma; lra].
Qed.

Lemma flight_data_window_arrival (i : nat) (f : CampaignFlight) :
  is_arrival_type (lowered_type f) = true ->
  windowStart (flight_data i f) = tActual (flight_data i f)
  /\ windowEnd (flight_data i f)
     = (tActual (flight_data i f) + NINETY_MINS_IN_SECONDS)%Z.
Proof.
  intros Ha. unfold flight_data. cbn [windowStart windowEnd tActual].
  rewrite Ha. split; reflexivity.
Qed.

Lemma flight_data_window_other (i : nat) (f : CampaignFlight) :
  is_arrival_type (lowered_type f) = false ->
  windowStart (flight_data i f) = departure_open (tActual (flight_data i f))
  /\ windowEnd (flight_data i f) = tActual (flight_data i f).
Proof.
  intros Ha. unfold flight_data. cbn [windowStart windowEnd tActual].
  rewrite Ha. split; reflexivity.
Qed.

Lemma passengers_at_after_window (i : nat) (f : CampaignFlight) (t : Z) :
  (windowEnd (flight_data i f) < t)%Z ->
  passengers_at (flight_data i f) t = 0.
Proof.
  destruct (is_arrival_type (lowered_type f)) eqn:Ha.
  - rewrite passengers_at_arrival by exact Ha.
    destruct (flight_data_window_arrival i f Ha) as [_ ->].
    intros Hlt. cbv zeta.
    set (tLand := tActual (flight_data i f)) in *.
    unfold NINETY_MINS_IN_SECONDS in *.
    replace (t <? tLand)%Z with false by (symmetry; apply Z.ltb_ge; lia).
    apply arrivals_after; [apply IZR_lt; lia | apply IZR_le; lia].
  - rewrite passengers_at_other by exact Ha.
    destruct (flight_data_window_other i f Ha) as [_ ->].
    intros Hlt. cbv zeta.
    replace (_ <? t)%Z with true by (symmetry; now apply Z.ltb_lt).
    reflexivity.
Qed.

Lemma grid_row_total_imap (flights : list CampaignFlight) (t : Z) :
  total (grid_row (imap flight_data flights) t)
  = foldr Z.add 0%Z
      (imap (fun i f => Js.Math_round (passengers_at (flight_data i f) t))
         flights).
Proof.
  unfold grid_row. cbn [total]. rewrite fold_add_flight_total.
  cbn [snd]. rewrite Z.add_0_l. f_equal.
  change (map ?g ?l) with (g <$> l). now rewrite fmap_imap.
Qed.

Lemma rounded_passengers_bounds (i : nat) (f : CampaignFlight) (t : Z) :
  0 <= pax_or_default f ->
  (0 <= Js.Math_round (passengers_at (flight_data i f) t)
   <= Js.Math_round (pax_or_default f))%Z.
Proof.
  intros HN. pose proof (passengers_at_range i f t HN) as [H0 H1].
  split; [now apply Math_round_nonneg | now apply Math_round_mono].
Qed.

Lemma Forall_lookup_In {A : Type} (P : A -> Prop) (l : list A) (i : nat) (x : A) :
  Forall P l -> l !! i = Some x -> P x.
Proof.
  intros Hall Hi. rewrite List.Forall_forall in Hall. apply Hall.
  apply list_elem_of_In. now apply (list_elem_of_lookup_2 _ i).
Qed.

Lemma grid_row_total_bounds (flights : list CampaignFlight) (t : Z) :
  Forall (fun f => 0 <= pax_or_default f) flights ->
  (0 <= total (grid_row (imap flight_data flights) t)
   <= foldr Z.add 0%Z
        (map (fun f => Js.Math_round (pax_or_default f)) flights))%Z.
Proof.
  intros Hall. rewrite grid_row_total_imap.
  pose proof (sum_imap_bounds
                (fun i f => Js.Math_round (passengers_at (flight_data i f) t))
                (fun _ => 0%Z)
                (fun f => Js.Math_round (pax_or_default f))
                flights) as Hsum.
  rewrite sum_zeros in Hsum. apply Hsum. intros i f Hi.
  apply rounded_passengers_bounds. exact (Forall_lookup_In _ _ _ _ Hall Hi).
Qed.

(** X13: when every selected flight has [N >= 0], every cell of the grid
    lies between [0] and the flight's rounded [N], and every total between
    [0] and the sum of the rounded [N] of the selection. *)
Theorem grid_values_bounded (flights : list CampaignFlight)
    (row : PassengerGridRow) :
  Forall (fun f => 0 <= pax_or_default f) flights ->
  In row (calculatePassengerGridData flights) ->
  (forall i f, flights !! i = Some f ->
     (0 <= cell row i <= Js.Math_round (pax_or_default f))%Z)
  /\ (0 <= total row
      <= foldr Z.add 0%Z
           (map (fun f => Js.Math_round (pax_or_default f)) flights))%Z.
Proof.
  intros Hall Hin. destruct (grid_rows_shape _ _ Hin) as [t ->].
  split.
  - intros i f Hi. unfold cell. rewrite (grid_row_cell flights i f t Hi).
    apply rounded_passengers_bounds. exact (Forall_lookup_In _ _ _ _ Hall Hi).
  - now apply grid_row_total_bounds.
Qed.

(** X14: the rows after the last window end (the trailing two-hour buffer)
    are empty: every cell and the total are [0], whatever the estimates. *)
Theorem grid_buffer_rows_empty (flights : list CampaignFlight)
    (row : PassengerGridRow) :
  In row (calculatePassengerGridData flights) ->
  (grid_maxTime flights - TWO_HOURS < row_time row)%Z ->
  total row = 0%Z
  /\ forall i, (i < length flights)%nat -> row_cells row !! column_key i = Some 0%Z.
Proof.
  intros Hin Hlate. destruct (grid_rows_shape _ _ Hin) as [t ->].
  cbn [row_time grid_row] in Hlate.
  assert (Hzero : forall i f, flights !! i = Some f ->
            Js.Math_round (passengers_at (flight_data i f) t) = 0%Z).
  { intros i f Hi. rewrite passengers_at_after_window; [apply Math_round_0 |].
    destruct (grid_covers_window flights i f Hi) as [_ Hhi]. lia. }
  split.
  - rewrite grid_row_total_imap.
    pose proof (sum_imap_bounds
                  (fun i f => Js.Math_round (passengers_at (flight_data i f) t))
                  (fun _ => 0%Z) (fun _ => 0%Z) flights) as Hsum.
    rewrite sum_zeros in Hsum. apply Z.le_antisymm; apply Hsum;
      intros i f Hi; rewrite (Hzero i f Hi); lia.
  - intros i Hi. destruct (lookup_lt_is_Some_2 flights i Hi) as [f Hf].
    rewrite (grid_row_cell flights i f t Hf). f_equal. now apply Hzero.
Qed.

End GridBounds.

(** ** The grid against the per-flight series *)

Lemma aligned_offset (start t : Z) :
  (start mod FIVE_MINUTES_IN_SECONDS = 0)%Z ->
  ((t - start) mod FIVE_MINUTES_IN_SECONDS = 0)%Z ->
  (t mod FIVE_MINUTES_IN_SECONDS = 0)%Z.
Proof.
  intros Hs Hd. unfold FIVE_MINUTES_IN_SECONDS in *.
  replace t with ((t - start) + start)%Z by lia.
  now rewrite Zplus_mod, Hd, Hs.
Qed.

Section GridAndSeries.
Context `{DateLib}.

(** X15: the grid agrees with the per-flight series.  For a selected
    flight with an anchor time, every point of an arrival's series, and
    every stepped point of a departure's series, has a grid row at the
    same instant whose cell for that flight holds the same count. *)
Theorem grid_agrees_with_series (flights : list CampaignFlight) (i : nat)
    (f : CampaignFlight) (s : string) (p : PassengerTimePoint) :
  flights !! i = Some f ->
  Js.or_str (actual_time_utc f) (scheduled_time_utc f) = Some s ->
  s <> "" ->
  (is_arrival_type (lowered_type f) = true ->
   In p (calculatePassengerDistribution f) ->
   exists row, In row (calculatePassengerGridData flights)
               /\ row_time row = time p
               /\ row_cells row !! column_key i = Some (passenger_count p))
  /\ (is_departure_type (lowered_type f) = true ->
      In p (departure_steps f (dayjs_unix s)) ->
      exists row, In row (calculatePassengerGridData flights)
                  /\ row_time row = time p
                  /\ row_cells row !! column_key i = Some (passenger_count p)).
Proof.
  intros Hi Hs Hne.
  assert (Hnonempty : flights <> []) by (intros ->; discriminate).
  pose proof (flight_data_anchor i f s Hs Hne) as Hanchor.
  destruct (grid_covers_window flights i f Hi) as [Hlo Hhi].
  split; intros Hty Hp.
  - rewrite (distribution_arrival f s Hs Hne Hty) in Hp.
    unfold arrival_steps in Hp. rewrite for_each_5min_instants in Hp.
    apply in_map_iff in Hp as (t & <- & Ht).
    apply step_instants_range in Ht as [[Ht1 Ht2] Hmod].
    destruct (arrival_start_bounds (dayjs_unix s)) as [Hb Hal].
    destruct (flight_data_window_arrival i f Hty) as [Hws Hwe].
    rewrite Hanchor in Hws, Hwe.
    exists (grid_row (imap flight_data flights) t). split; [| split].
    + apply grid_row_at; [easy | | now apply (aligned_offset _ _ Hal)].
      unfold TWO_HOURS in *. lia.
    + reflexivity.
    + rewrite (grid_row_cell flights i f t Hi).
      rewrite passengers_at_arrival by exact Hty. cbv zeta. rewrite Hanchor.
      replace (t <? dayjs_unix s)%Z with false
        by (symmetry; apply Z.ltb_ge; lia).
      reflexivity.
  - unfold departure_steps in Hp. rewrite for_each_5min_instants in Hp.
    apply in_map_iff in Hp as (t & <- & Ht).
    apply step_instants_range in Ht as [[Ht1 Ht2] Hmod].
    pose proof (departure_not_arrival _ Hty) as Hna.
    destruct (flight_data_window_other i f Hna) as [Hws Hwe].
    rewrite Hanchor in Hws, Hwe.
    exists (grid_row (imap flight_data flights) t). split; [| split].
    + apply grid_row_at; [easy | |].
      * unfold TWO_HOURS in *. lia.
      * apply (aligned_offset (departure_open (dayjs_unix s)));
          [apply departure_open_aligned | exact Hmod].
    + reflexivity.
    + rewrite (grid_row_cell flights i f t Hi).
      rewrite passengers_at_other by exact Hna. cbv zeta. rewrite Hanchor.
      replace (dayjs_unix s <? t)%Z with false
        by (symmetry; apply Z.ltb_ge; lia).
      reflexivity.
Qed.

End GridAndSeries.

(** ** The chart series *)

Lemma transform_nonempty (gridData : list PassengerGridRow)
    (flights : list CampaignFlight) :
  gridData <> [] ->
  transformToNivoData gridData flights
  = imap (fun index flight =>
            {| serie_id := flight_number flight;
               serie_data :=
                 map (fun row => {| nivo_x := row_time_formatted row;
                                    nivo_y := cell row index |})
                     gridData |})
         flights.
Proof.
  intros Hne. destruct gridData as [| r g]; [easy |].
  destruct flights; reflexivity.
Qed.

(** X16: without rows there are no series; with at least one row there is
    one series per flight, in selection order and named by the flight
    number, and each series has one point per grid row, in row order and
    labelled with the row's formatted time. *)
Theorem chart_series_shape (gridData : list PassengerGridRow)
    (flights : list CampaignFlight) :
  transformToNivoData [] flights = []
  /\ (gridData <> [] ->
      map serie_id (transformToNivoData gridData flights)
      = map flight_number flights
      /\ Forall (fun serie => map nivo_x (serie_data serie)
                              = map row_time_formatted gridData)
           (transformToNivoData gridData flights)).
Proof.
  split; [reflexivity |]. intros Hne. rewrite transform_nonempty by easy. split.
  - change (map ?g ?l) with (g <$> l). apply list_eq. intros i.
    rewrite !list_lookup_fmap, list_lookup_imap.
    now destruct (flights !! i).
  - apply List.Forall_forall. intros serie Hin.
    apply list_elem_of_In, elem_of_lookup_imap_1 in Hin as (i & f & -> & _).
    cbn [serie_data]. now rewrite map_map.
Qed.

Lemma sum_imap_seq {A : Type} (g : nat -> A -> Z) (h : nat -> Z) (l : list A) :
  (forall i x, l !! i = Some x -> g i x = h i) ->
  foldr Z.add 0%Z (imap g l) = foldr Z.add 0%Z (map h (seq 0 (length l))).
Proof.
  revert g h. induction l as [| x l IH]; intros g h Hg; [reflexivity |].
  simpl. rewrite (Hg 0%nat x eq_refl). f_equal.
  rewrite <- seq_shift, map_map.
  apply (IH (g ∘ S) (fun i => h (S i))). intros i y Hy. apply (Hg (S i) y Hy).
Qed.

Section Chart.
Context `{DateLib}.

(** X17: in the chart built from the grid of a selection, the values of
    all series at the position of a row add up to that row's [total]: the
    top of the stacked chart is the grid total. *)
Theorem chart_stack_is_total (flights : list CampaignFlight) (j : nat)
    (row : PassengerGridRow) :
  calculatePassengerGridData flights !! j = Some row ->
  foldr Z.add 0%Z
    (map (fun serie => default 0%Z (nivo_y <$> serie_data serie !! j))
       (transformToNivoData (calculatePassengerGridData flights) flights))
  = total row.
Proof.
  intros Hj.
  assert (Hne : calculatePassengerGridData flights <> [])
    by (intros E; rewrite E in Hj; discriminate).
  assert (Hin : In row (calculatePassengerGridData flights))
    by (apply list_elem_of_In; now apply (list_elem_of_lookup_2 _ j)).
  rewrite transform_nonempty by exact Hne.
  change (map ?g (imap ?k flights)) with (g <$> imap k flights).
  rewrite fmap_imap.
  rewrite (sum_imap_seq _ (cell row) flights).
  - destruct (grid_rows_shape _ _ Hin) as [t ->].
    symmetry. apply grid_row_total.
  - intros i f Hi. cbn [compose serie_data].
    change (map ?g ?l) with (g <$> l).
    rewrite list_lookup_fmap, Hj. reflexivity.
Qed.

End Chart.

(** ** A flight's column does not depend on the rest of the selection *)

Section Selection.
Context `{DateLib}.

Lemma passengers_at_index (i j : nat) (f : CampaignFlight) (t : Z) :
  passengers_at (flight_data i f) t = passengers_at (flight_data j f) t.
Proof. reflexivity. Qed.

(** X18: the value of a flight at an instant does not depend on which
    other flights are selected nor on its position: in the grids of two
    selections that both contain the flight, rows at the same instant hold
    the same value in the flight's column. *)
Theorem grid_cell_independent_of_selection
    (flights flights' : list CampaignFlight) (i j : nat) (f : CampaignFlight)
    (row row' : PassengerGridRow) :
  flights !! i = Some f -> flights' !! j = Some f ->
  In row (calculatePassengerGridData flights) ->
  In row' (calculatePassengerGridData flights') ->
  row_time row = row_time row' ->
  row_cells row !! column_key i = row_cells row' !! column_key j.
Proof.
  intros Hi Hj Hin Hin' Ht.
  destruct (grid_rows_shape _ _ Hin) as [t ->].
  destruct (grid_rows_shape _ _ Hin') as [t' ->].
  cbn [row_time grid_row] in Ht. subst t'.
  rewrite (grid_row_cell flights i f t Hi), (grid_row_cell flights' j f t Hj).
  now rewrite (passengers_at_index i j).
Qed.

End Selection.

(** ** The summary line against the grid *)

Lemma sum_imap_nonneg {A : Type} (g : nat -> A -> Z) (l : list A) :
  (forall k y, l !! k = Some y -> (0 <= g k y)%Z) ->
  (0 <= foldr Z.add 0%Z (imap g l))%Z.
Proof.
  revert g. induction l as [| x l IH]; intros g Hpos; simpl; [lia |].
  specialize (IH (g ∘ S) (fun k y Hk => Hpos (S k) y Hk)).
  specialize (Hpos 0%nat x eq_refl). lia.
Qed.

Lemma sum_imap_ge_elem {A : Type} (g : nat -> A -> Z) (l : list A)
    (i : nat) (x : A) :
  (forall k y, l !! k = Some y -> (0 <= g k y)%Z) ->
  l !! i = Some x ->
  (g i x <= foldr Z.add 0%Z (imap g l))%Z.
Proof.
  revert g i. induction l as [| y l IH]; intros g i Hpos Hi; [discriminate |].
  simpl.
  pose proof (sum_imap_nonneg (g ∘ S) l (fun k z Hk => Hpos (S k) z Hk)) as H0.
  destruct i as [| i].
  - injection Hi as ->. lia.
  - specialize (IH (g ∘ S) i (fun k z Hk => Hpos (S k) z Hk) Hi).
    specialize (Hpos 0%nat y eq_refl). cbn [compose] in IH. lia.
Qed.

Lemma estimate_sum_whole (flights : list CampaignFlight) (a : R) :
  Forall (fun f => exists n, (0 < n)%Z /\ avg_pax_est f = Some (IZR n)) flights ->
  fold_left (fun sum f => sum + Js.or_num (avg_pax_est f) 0) flights a
  = a + IZR (foldr Z.add 0%Z
               (map (fun f => Js.Math_round (pax_or_default f)) flights)).
Proof.
  revert a. induction flights as [| f l IH]; intros a Hall;
    cbn [fold_left map foldr]; [lra |].
  apply Forall_inv in Hall as Hf. apply Forall_inv_tail in Hall.
  destruct Hf as (n & Hn & Hf).
  assert (Hne : IZR n <> 0) by (apply not_0_IZR; lia).
  assert (Hq : Js.or_num (avg_pax_est f) 0 = IZR n)
    by (rewrite Hf; now apply or_num_value).
  assert (Hp : pax_or_default f = IZR n)
    by (unfold pax_or_default; rewrite Hf; now apply or_num_value).
  rewrite IH by exact Hall. rewrite Hq, Hp, Math_round_IZR, plus_IZR. lra.
Qed.

Lemma estimate_sum_missing (flights : list CampaignFlight) (a : R) :
  Forall (fun f => avg_pax_est f = None \/ avg_pax_est f = Some 0) flights ->
  fold_left (fun sum f => sum + Js.or_num (avg_pax_est f) 0) flights a = a.
Proof.
  revert a. induction flights as [| f l IH]; intros a Hall; simpl; [reflexivity |].
  apply Forall_inv in Hall as Hf. apply Forall_inv_tail in Hall.
  rewrite IH by exact Hall.
  destruct Hf as [-> | ->]; [simpl | rewrite or_num_default]; lra.
Qed.

Section Summary.
Context `{DateLib}.

(** X19: when every selected flight has a positive whole-number estimate,
    the "Total Est. Passengers" of the summary line is the sum of the
    estimates and no row total of the grid exceeds it. *)
Theorem grid_totals_within_summary (flights : list CampaignFlight)
    (row : PassengerGridRow) :
  Forall (fun f => exists n, (0 < n)%Z /\ avg_pax_est f = Some (IZR n)) flights ->
  In row (calculatePassengerGridData flights) ->
  selected_total_estimate flights
  = foldr Z.add 0%Z (map (fun f => Js.Math_round (pax_or_default f)) flights)
  /\ (0 <= total row <= selected_total_estimate flights)%Z.
Proof.
  intros Hall Hin.
  assert (Hsum : selected_total_estimate flights
                 = foldr Z.add 0%Z
                     (map (fun f => Js.Math_round (pax_or_default f)) flights)).
  { unfold selected_total_estimate. rewrite estimate_sum_whole by exact Hall.
    rewrite Rplus_0_l. apply Math_round_IZR. }
  split; [exact Hsum |]. rewrite Hsum.
  destruct (grid_rows_shape _ _ Hin) as [t ->].
  apply grid_row_total_bounds.
  apply List.Forall_forall. intros f Hf.
  rewrite List.Forall_forall in Hall. destruct (Hall f Hf) as (n & Hn & Havg).
  unfold pax_or_default. rewrite Havg, or_num_value by (apply not_0_IZR; lia).
  apply IZR_le. lia.
Qed.

(** X20: the summary line and the grid disagree on a missing estimate.
    When no selected flight has an estimate (absent or zero), the "Total
    Est. Passengers" is [0]; yet a departure of the selection whose anchor
    time is a multiple of five minutes has a grid row at its departure
    instant where its column holds [100], and so the row total is at least
    [100]. *)
Theorem summary_ignores_default_estimate (flights : list CampaignFlight)
    (i : nat) (f : CampaignFlight) (s : string) :
  Forall (fun f => avg_pax_est f = None \/ avg_pax_est f = Some 0) flights ->
  flights !! i = Some f ->
  Js.or_str (actual_time_utc f) (scheduled_time_utc f) = Some s ->
  s <> "" ->
  is_departure_type (lowered_type f) = true ->
  (dayjs_unix s mod FIVE_MINUTES_IN_SECONDS = 0)%Z ->
  selected_total_estimate flights = 0%Z
  /\ exists row, In row (calculatePassengerGridData flights)
                 /\ row_time row = dayjs_unix s
                 /\ row_cells row !! column_key i = Some 100%Z
                 /\ (100 <= total row)%Z.
Proof.
  intros Hall Hi Hs Hne Hd Hal.
  assert (Hpax : forall g, avg_pax_est g = None \/ avg_pax_est g = Some 0 ->
                           pax_or_default g = 100).
  { intros g [Hg | Hg]; unfold pax_or_default; rewrite Hg;
      [reflexivity | apply or_num_default]. }
  split.
  { unfold selected_total_estimate. rewrite estimate_sum_missing by exact Hall.
    apply Math_round_0. }
  assert (Hnonempty : flights <> []) by (intros ->; discriminate).
  pose proof (flight_data_anchor i f s Hs Hne) as Hanchor.
  pose proof (departure_not_arrival _ Hd) as Hna.
  destruct (grid_covers_window flights i f Hi) as [Hlo Hhi].
  destruct (flight_data_window_other i f Hna) as [Hws Hwe].
  rewrite Hanchor in Hws, Hwe.
  pose proof (departure_open_lt (dayjs_unix s)) as Hopen.
  assert (Hcell : Js.Math_round (passengers_at (flight_data i f) (dayjs_unix s))
                  = 100%Z).
  { rewrite <- Hanchor. rewrite passengers_at_other_anchor by exact Hna.
    rewrite (Hpax f (Forall_lookup_In _ _ _ _ Hall Hi)).
    apply (Math_round_IZR 100). }
  exists (grid_row (imap flight_data flights) (dayjs_unix s)).
  split; [| split; [reflexivity | split]].
  - apply grid_row_at; [easy | | exact Hal]. unfold TWO_HOURS in *. lia.
  - rewrite (grid_row_cell flights i f _ Hi). now rewrite Hcell.
  - rewrite grid_row_total_imap. rewrite <- Hcell.
    apply (sum_imap_ge_elem
             (fun k g => Js.Math_round (passengers_at (flight_data k g)
                                          (dayjs_unix s)))
             flights i f); [| exact Hi].
    intros k g Hk. apply rounded_passengers_bounds.
    rewrite (Hpax g (Forall_lookup_In _ _ _ _ Hall Hk)). lra.
Qed.

End Summary.

(** ** Pending edits *)

Lemma merge_existing_after (prev : gmap Z (gmap string (option string)))
    (c : Z) (field : string) (v : option string) :
  default ∅ (merge_pending_change prev c field v !! c)
  = <[field := v]> (default ∅ (prev !! c)).
Proof. unfold merge_pending_change. now rewrite lookup_insert_eq. Qed.

Lemma merge_existing_other (prev : gmap Z (gmap string (option string)))
    (c c' : Z) (field : string) (v : option string) :
  c <> c' ->
  merge_pending_change prev c field v !! c' = prev !! c'.
Proof. intros Hne. unfold merge_pending_change. now rewrite lookup_insert_ne. Qed.

Lemma merge_same_cell (prev : gmap Z (gmap string (option string)))
    (c : Z) (f : string) (v1 v2 : option string) :
  merge_pending_change (merge_pending_change prev c f v1) c f v2
  = merge_pending_change prev c f v2.
Proof.
  unfold merge_pending_change at 1. rewrite merge_existing_after.
  unfold merge_pending_change. now rewrite !insert_insert_eq.
Qed.

Lemma merge_commute (prev : gmap Z (gmap string (option string)))
    (c1 c2 : Z) (f1 f2 : string) (v1 v2 : option string) :
  c1 <> c2 \/ f1 <> f2 ->
  merge_pending_change (merge_pending_change prev c1 f1 v1) c2 f2 v2
  = merge_pending_change (merge_pending_change prev c2 f2 v2) c1 f1 v1.
Proof.
  intros Hdiff. destruct (decide (c1 = c2)) as [<- | Hc].
  - destruct Hdiff as [Hc | Hf]; [easy |].
    unfold merge_pending_change at 1 3. rewrite !merge_existing_after.
    unfold merge_pending_change. rewrite !insert_insert_eq.
    f_equal. now apply insert_insert_ne.
  - unfold merge_pending_change at 1 3.
    rewrite !merge_existing_other by congruence.
    unfold merge_pending_change. now apply insert_insert_ne.
Qed.

(** The handler either leaves the pending changes alone or merges. *)
Lemma onCellValueChanged_cases (prev : gmap Z (gmap string (option string)))
    (data : option Z) (field : option string) (v : option string) :
  ((data = None \/ Js.truthy_str field = false)
   /\ onCellValueChanged prev data field v = prev)
  \/ (exists c f, data = Some c /\ field = Some f /\ f <> ""
                  /\ onCellValueChanged prev data field v
                     = merge_pending_change prev c f v).
Proof.
  destruct data as [c |]; [| left; split; [now left | reflexivity]].
  destruct field as [[| a r] |].
  - left. split; [now right | reflexivity].
  - right. exists c, (String a r). repeat split. discriminate.
  - left. split; [now right | reflexivity].
Qed.

(** X21: editing the same cell twice keeps only the last value, and edits
    of two different cells (another campaign or another field) give the
    same pending changes in either order; both also hold when the handler
    ignores an event that has no row data or no field. *)
Theorem pending_edits_compose (prev : gmap Z (gmap string (option string)))
    (d1 d2 : option Z) (f1 f2 : option string) (v1 v2 : option string) :
  onCellValueChanged (onCellValueChanged prev d1 f1 v1) d1 f1 v2
  = onCellValueChanged prev d1 f1 v2
  /\ (d1 <> d2 \/ f1 <> f2 ->
      onCellValueChanged (onCellValueChanged prev d1 f1 v1) d2 f2 v2
      = onCellValueChanged (onCellValueChanged prev d2 f2 v2) d1 f1 v1).
Proof.
  split.
  - destruct (onCellValueChanged_cases prev d1 f1 v1)
      as [[_ E1] | (c & f & -> & -> & Hf & E1)].
    + rewrite E1. reflexivity.
    + destruct f as [| a r]; [easy |]. cbn [onCellValueChanged].
      apply merge_same_cell.
  - intros Hdiff.
    destruct d1 as [c1 |]; [| reflexivity].
    destruct f1 as [[| a1 r1] |]; [reflexivity | | reflexivity].
    destruct d2 as [c2 |]; [| reflexivity].
    destruct f2 as [[| a2 r2] |]; [reflexivity | | reflexivity].
    cbn [onCellValueChanged]. apply merge_commute.
    destruct Hdiff as [Hd | Hf]; [left | right]; congruence.
Qed.

(** X22: an event without row data or without a field leaves the pending
    changes untouched.  Otherwise the campaign has pending changes that
    hold the new value in the edited field and keep its other pending
    fields, and the number of unsaved changes counts campaigns, not cells:
    it grows by one when the campaign had no pending change and stays the
    same otherwise. *)
Theorem pending_edit_recorded (prev : gmap Z (gmap string (option string)))
    (data : option Z) (field : option string) (v : option string) :
  (data = None \/ Js.truthy_str field = false ->
   onCellValueChanged prev data field v = prev)
  /\ (forall c f, data = Some c -> field = Some f -> f <> "" ->
      (exists changes,
         onCellValueChanged prev data field v !! c = Some changes
         /\ changes !! f = Some v
         /\ forall other, other <> f ->
              changes !! other = default ∅ (prev !! c) !! other)
      /\ size (onCellValueChanged prev data field v)
         = (if decide (is_Some (prev !! c)) then size prev
            else S (size prev))).
Proof.
  split.
  - intros Hguard.
    destruct (onCellValueChanged_cases prev data field v)
      as [[_ E] | (c & f & -> & -> & Hf & _)]; [exact E |].
    destruct Hguard as [Hd | Ht]; [discriminate |].
    destruct f; [easy | discriminate].
  - intros c f -> -> Hf. destruct f as [| a r]; [easy |].
    cbn [onCellValueChanged]. set (f := String a r). split.
    + exists (<[f := v]> (default ∅ (prev !! c))). split; [| split].
      * unfold merge_pending_change. apply lookup_insert_eq.
      * apply lookup_insert_eq.
      * intros other Hne. apply lookup_insert_ne. congruence.
    + unfold merge_pending_change. rewrite map_size_insert.
      destruct (prev !! c) as [m |] eqn:E; destruct (decide _) as [Hs | Hs];
        try reflexivity.
      * exfalso. apply Hs. now eexists.
      * now destruct Hs.
Qed.

(** ** A zero estimate *)

Section DefaultEstimate.
Context `{DateLib}.

(** Every point of an arrival's series carries the rounded arrival curve
    at its own instant. *)
Lemma arrival_series_counts (flight : CampaignFlight) (s : string) :
  Js.or_str (actual_time_utc flight) (scheduled_time_utc flight) = Some s ->
  s <> "" ->
  is_arrival_type (lowered_type flight) = true ->
  calculatePassengerDistribution flight <> []
  /\ Forall (fun p =>
       passenger_count p =
       Js.Math_round
         (arrivalsExitLogNormal (IZR (time p)) (pax_or_default flight)
            (IZR (dayjs_unix s)) (IZR (dayjs_unix s + NINETY_MINS_IN_SECONDS))
            arrival_sigma arrival_medianFraction))
     (calculatePassengerDistribution flight).
Proof.
  intros Hs Hne Ha. rewrite (distribution_arrival flight s Hs Hne Ha).
  unfold arrival_steps. split.
  - apply for_each_5min_nonempty.
    destruct (arrival_start_bounds (dayjs_unix s)) as [Hb _].
    unfold NINETY_MINS_IN_SECONDS, FIVE_MINUTES_IN_SECONDS in *. lia.
  - apply for_each_5min_Forall. intros u _. reflexivity.
Qed.

(** Every point of a departure's series, the appended one included,
    carries the rounded departure curve at its own instant. *)
Lemma departure_series_counts (flight : CampaignFlight) (s : string) :
  Js.or_str (actual_time_utc flight) (scheduled_time_utc flight) = Some s ->
  s <> "" ->
  is_departure_type (lowered_type flight) = true ->
  Forall (fun p =>
    passenger_count p =
    Js.Math_round
      (passengersLogNormal (IZR (time p)) (pax_or_default flight)
         (IZR (departure_open (dayjs_unix s))) (IZR (dayjs_unix s))
         departure_sigma departure_medianFraction))
    (calculatePassengerDistribution flight).
Proof.
  intros Hs Hne Hd. rewrite (distribution_departure flight s Hs Hne Hd).
  assert (Hsteps : Forall (fun p =>
            passenger_count p =
            Js.Math_round
              (passengersLogNormal (IZR (time p)) (pax_or_default flight)
                 (IZR (departure_open (dayjs_unix s))) (IZR (dayjs_unix s))
                 departure_sigma departure_medianFraction))
            (departure_steps flight (dayjs_unix s))).
  { unfold departure_steps. apply for_each_5min_Forall. intros u _.
    reflexivity. }
  destruct (decide _) as [E | E]; [exact Hsteps |].
  apply Forall_app. split; [exact Hsteps |].
  constructor; [| constructor]. cbn [passenger_count time point_at].
  f_equal. symmetry.
  apply passengers_after; [apply departure_open_IZR_lt | lra].
Qed.

(** The cell of a flight with an anchor time, by the type of the flight. *)
Lemma grid_cell_by_type (flights : list CampaignFlight) (i : nat)
    (f : CampaignFlight) (s : string) (t : Z) :
  flights !! i = Some f ->
  Js.or_str (actual_time_utc f) (scheduled_time_utc f) = Some s ->
  s <> "" ->
  (is_arrival_type (lowered_type f) = true ->
   row_cells (grid_row (imap flight_data flights) t) !! column_key i =
   Some (if (t <? dayjs_unix s)%Z then 0%Z
         else Js.Math_round
                (arrivalsExitLogNormal (IZR t) (pax_or_default f)
                   (IZR (dayjs_unix s))
                   (IZR (dayjs_unix s + NINETY_MINS_IN_SECONDS))
                   arrival_sigma arrival_medianFraction)))
  /\ (is_departure_type (lowered_type f) = true ->
      row_cells (grid_row (imap flight_data flights) t) !! column_key i =
      Some (if (dayjs_unix s <? t)%Z then 0%Z
            else Js.Math_round
                   (passengersLogNormal (IZR t) (pax_or_default f)
                      (IZR (departure_open (dayjs_unix s)))
                      (IZR (dayjs_unix s))
                      departure_sigma departure_medianFraction))).
Proof.
  intros Hi Hs Hne. rewrite (grid_row_cell flights i f t Hi).
  pose proof (flight_data_anchor i f s Hs Hne) as Ha.
  split; intros Hty.
  - rewrite passengers_at_arrival by exact Hty. cbv zeta. rewrite Ha.
    destruct (t <? dayjs_unix s)%Z; [now rewrite Math_round_0 | reflexivity].
  - rewrite passengers_at_other by (now apply departure_not_arrival).
    cbv zeta. rewrite Ha.
    destruct (dayjs_unix s <? t)%Z; [now rewrite Math_round_0 | reflexivity].
Qed.

(** C10: a flight whose estimated passenger count is [0] gets the default
    [N = 100] in the per-flight series and in the grid, exactly as if the
    estimate were absent.  Its series and its grid are those of the same
    flight without an estimate and of the same flight with the estimate
    [100]; when it has an anchor time, every point of its series and
    every cell of its grid column is the rounded curve for [N = 100], the
    last point of a departure carries exactly [100], and the series and
    the grid are not empty. *)
Theorem zero_estimate_uses_default (flight : CampaignFlight) :
  avg_pax_est flight = Some 0 ->
  pax_or_default flight = 100
  /\ calculatePassengerDistribution flight
     = calculatePassengerDistribution (with_pax flight None)
  /\ calculatePassengerDistribution flight
     = calculatePassengerDistribution (with_pax flight (Some 100))
  /\ (forall before after,
        calculatePassengerGridData (before ++ flight :: after)
        = calculatePassengerGridData (before ++ with_pax flight None :: after)
        /\ calculatePassengerGridData (before ++ flight :: after)
           = calculatePassengerGridData
               (before ++ with_pax flight (Some 100) :: after))
  /\ (forall s,
        Js.or_str (actual_time_utc flight) (scheduled_time_utc flight) = Some s ->
        s <> "" ->
        let tAnchor := dayjs_unix s in
        (is_arrival_type (lowered_type flight) = true ->
         calculatePassengerDistribution flight <> []
         /\ Forall (fun p =>
              passenger_count p =
              Js.Math_round
                (arrivalsExitLogNormal (IZR (time p)) 100 (IZR tAnchor)
                   (IZR (tAnchor + NINETY_MINS_IN_SECONDS))
                   arrival_sigma arrival_medianFraction))
            (calculatePassengerDistribution flight))
        /\ (is_departure_type (lowered_type flight) = true ->
            (exists p, last (calculatePassengerDistribution flight) = Some p
                       /\ time p = tAnchor /\ passenger_count p = 100%Z)
            /\ Forall (fun p =>
                 passenger_count p =
                 Js.Math_round
                   (passengersLogNormal (IZR (time p)) 100
                      (IZR (departure_open tAnchor)) (IZR tAnchor)
                      departure_sigma departure_medianFraction))
               (calculatePassengerDistribution flight))
        /\ (forall flights i,
              flights !! i = Some flight ->
              calculatePassengerGridData flights <> []
              /\ Forall (fun row =>
                   let t := row_time row in
                   (is_arrival_type (lowered_type flight) = true ->
                    row_cells row !! column_key i =
                    Some (if (t <? tAnchor)%Z then 0%Z
                          else Js.Math_round
                                 (arrivalsExitLogNormal (IZR t) 100
                                    (IZR tAnchor)
                                    (IZR (tAnchor + NINETY_MINS_IN_SECONDS))
                                    arrival_sigma arrival_medianFraction)))
                   /\ (is_departure_type (lowered_type flight) = true ->
                       row_cells row !! column_key i =
                       Some (if (tAnchor <? t)%Z then 0%Z
                             else Js.Math_round
                                    (passengersLogNormal (IZR t) 100
                                       (IZR (departure_open tAnchor))
                                       (IZR tAnchor)
                                       departure_sigma
                                       departure_medianFraction))))
                 (calculatePassengerGridData flights))).
Proof.
  intros Hz.
  assert (Hp : pax_or_default flight = 100)
    by (unfold pax_or_default; rewrite Hz; apply or_num_default).
  assert (H100 : Js.or_num (Some 100) 100 = 100)
    by (apply or_num_value; lra).
  split; [exact Hp |].
  split; [now apply distribution_same_inputs |].
  split; [apply distribution_same_inputs; now rewrite H100 |].
  split.
  { intros before after. split.
    - now apply grid_same_inputs.
    - apply grid_same_inputs; try reflexivity.
      unfold pax_or_default at 2. cbn [avg_pax_est with_pax].
      now rewrite H100. }
  intros s Hs Hne tAnchor. split; [| split].
  - intros Ha. rewrite <- Hp. now apply arrival_series_counts.
  - intros Hd. split.
    + exists (point_at flight tAnchor (pax_or_default flight)).
      split; [now apply distribution_departure_last |].
      split; [reflexivity |].
      cbn [passenger_count point_at]. rewrite Hp. apply (Math_round_IZR 100).
    + rewrite <- Hp. now apply departure_series_counts.
  - intros flights i Hi. split.
    + apply grid_nonempty. intros ->. discriminate.
    + apply grid_rows_Forall. intros t. cbv zeta.
      change (row_time (grid_row (imap flight_data flights) t)) with t.
      rewrite <- Hp. exact (grid_cell_by_type flights i flight s t Hi Hs Hne).
Qed.

End DefaultEstimate.

(** ** The further statements on the sample data *)

Section FurtherSamples.
#[local] Existing Instance sample_dates.

Lemma sample_pair_nonnegative :
  Forall (fun f => 0 <= pax_or_default f) [sample_arrival; sample_departure].
Proof.
  assert (H80 : pax_or_default sample_arrival = 80)
    by (apply or_num_value; lra).
  constructor; [rewrite H80; lra |].
  constructor; [unfold pax_or_default; simpl; lra | constructor].
Qed.

Lemma arrival_series_instants_witness :
  map time (calculatePassengerDistribution sample_arrival)
  = step_instants (noon - 7200) 19.
Proof.
  destruct (arrival_series_instants sample_arrival "2024-01-01T10:00:00Z")
    as (Ht & _ & _); [reflexivity | discriminate | reflexivity |].
  exact Ht.
Defined.

Lemma arrival_series_endpoints_witness :
  (exists p, head (calculatePassengerDistribution sample_arrival) = Some p
             /\ time p = (noon - 7200)%Z
             /\ passenger_count p = Js.Math_round (pax_or_default sample_arrival))
  /\ (exists p, last (calculatePassengerDistribution sample_arrival) = Some p
                /\ time p = (noon - 7200 + NINETY_MINS_IN_SECONDS)%Z
                /\ passenger_count p = 0%Z).
Proof.
  destruct (arrival_series_endpoints sample_arrival "2024-01-01T10:00:00Z")
    as [Haligned _]; [reflexivity | discriminate | reflexivity |].
  apply Haligned. reflexivity.
Defined.

Lemma departure_series_start_witness :
  (exists p, head (calculatePassengerDistribution sample_departure) = Some p
             /\ time p = (noon - 10800)%Z /\ passenger_count p = 0%Z)
  /\ Forall (fun p => (noon - 10800 <= time p <= noon)%Z)
       (calculatePassengerDistribution sample_departure).
Proof.
  exact (departure_series_start sample_departure "2024-01-01T12:00:00Z"
           eq_refl ltac:(discriminate) eq_refl).
Defined.

Lemma series_counts_monotone_witness :
  StronglySorted Z.le
    (map passenger_count (calculatePassengerDistribution sample_departure)).
Proof.
  destruct (series_counts_monotone sample_departure) as [_ Hdep].
  - unfold pax_or_default. simpl. lra.
  - apply Hdep. reflexivity.
Defined.

Lemma grid_row_times_witness :
  map row_time (calculatePassengerGridData [sample_departure])
  = step_instants (noon - 10800) 61
  /\ ((noon - 10800) mod FIVE_MINUTES_IN_SECONDS = 0)%Z
  /\ StronglySorted Z.lt
       (map row_time (calculatePassengerGridData [sample_departure]))
  /\ (25 <= length (calculatePassengerGridData [sample_departure]))%nat.
Proof.
  exact (grid_row_times [sample_departure] ltac:(discriminate)).
Defined.

Lemma grid_row_columns_witness :
  is_Some (row_cells (grid_row (imap flight_data [sample_departure])
                        (noon - 10800 + 300 * Z.of_nat 12)%Z) !! "flight_0")
  <-> exists i, (i < 1)%nat /\ "flight_0" = column_key i.
Proof.
  apply (grid_row_columns [sample_departure]). apply sample_departure_row. lia.
Defined.

Lemma grid_values_bounded_witness :
  let row := grid_row (imap flight_data [sample_arrival; sample_departure])
               (noon - 10800 + 300 * Z.of_nat 12)%Z in
  (forall i f, [sample_arrival; sample_departure] !! i = Some f ->
     (0 <= cell row i <= Js.Math_round (pax_or_default f))%Z)
  /\ (0 <= total row
      <= foldr Z.add 0%Z
           (map (fun f => Js.Math_round (pax_or_default f))
              [sample_arrival; sample_departure]))%Z.
Proof.
  apply (grid_values_bounded [sample_arrival; sample_departure]).
  - exact sample_pair_nonnegative.
  - apply sample_pair_row. lia.
Defined.

Lemma grid_buffer_rows_empty_witness :
  let row := grid_row (imap flight_data [sample_departure])
               (noon - 10800 + 300 * Z.of_nat 40)%Z in
  total row = 0%Z
  /\ forall i, (i < 1)%nat -> row_cells row !! column_key i = Some 0%Z.
Proof.
  apply (grid_buffer_rows_empty [sample_departure]).
  - apply sample_departure_row. lia.
  - reflexivity.
Defined.

Lemma grid_agrees_with_series_witness :
  let p := point_at sample_departure (noon - 10800)
             (passengersLogNormal (IZR (noon - 10800))
                (pax_or_default sample_departure)
                (IZR (departure_open noon)) (IZR noon)
                departure_sigma departure_medianFraction) in
  exists row,
    In row (calculatePassengerGridData [sample_arrival; sample_departure])
    /\ row_time row = time p
    /\ row_cells row !! column_key 1 = Some (passenger_count p).
Proof.
  intros p.
  destruct (grid_agrees_with_series [sample_arrival; sample_departure] 1
              sample_departure "2024-01-01T12:00:00Z" p) as [_ Hdep];
    [reflexivity | reflexivity | discriminate |].
  apply Hdep; [reflexivity |].
  unfold departure_steps. rewrite for_each_5min_in_range by easy.
  left. reflexivity.
Defined.

Lemma chart_series_shape_witness :
  map serie_id
    (transformToNivoData
       (calculatePassengerGridData [sample_arrival; sample_departure])
       [sample_arrival; sample_departure])
  = ["LO282"; "LO281"].
Proof.
  destruct (chart_series_shape
              (calculatePassengerGridData [sample_arrival; sample_departure])
              [sample_arrival; sample_departure]) as [_ Hshape].
  destruct Hshape as [Hids _]; [| exact Hids].
  apply (grid_nonempty [sample_arrival; sample_departure]). discriminate.
Defined.

Lemma chart_stack_is_total_witness :
  let row := grid_row (imap flight_data [sample_arrival; sample_departure])
               (noon - 10800)%Z in
  foldr Z.add 0%Z
    (map (fun serie => default 0%Z (nivo_y <$> serie_data serie !! 0%nat))
       (transformToNivoData
          (calculatePassengerGridData [sample_arrival; sample_departure])
          [sample_arrival; sample_departure]))
  = total row.
Proof.
  apply (chart_stack_is_total [sample_arrival; sample_departure] 0).
  rewrite grid_unfold by discriminate.
  rewrite for_each_5min_in_range by easy. reflexivity.
Defined.

Lemma sample_departure_missing :
  Forall (fun f => avg_pax_est f = None \/ avg_pax_est f = Some 0)
    [sample_departure; sample_zero_pax].
Proof.
  constructor; [now left |]. constructor; [now right | constructor].
Qed.

Lemma grid_cell_independent_of_selection_witness :
  row_cells (grid_row (imap flight_data [sample_departure])
               (noon - 10800 + 300 * Z.of_nat 12)%Z) !! column_key 0
  = row_cells (grid_row (imap flight_data [sample_arrival; sample_departure])
                 (noon - 10800 + 300 * Z.of_nat 12)%Z) !! column_key 1.
Proof.
  apply (grid_cell_independent_of_selection [sample_departure]
           [sample_arrival; sample_departure] 0 1 sample_departure).
  - reflexivity.
  - reflexivity.
  - apply sample_departure_row. lia.
  - apply sample_pair_row. lia.
  - reflexivity.
Defined.

Lemma grid_totals_within_summary_witness :
  let flights := [sample_arrival; with_pax sample_departure (Some 150)] in
  let row := grid_row (imap flight_data flights)
               (grid_startTime flights
                + FIVE_MINUTES_IN_SECONDS * Z.of_nat 0)%Z in
  selected_total_estimate flights
  = foldr Z.add 0%Z (map (fun f => Js.Math_round (pax_or_default f)) flights)
  /\ (0 <= total row <= selected_total_estimate flights)%Z.
Proof.
  intros flights row.
  apply (grid_totals_within_summary flights row).
  - constructor; [exists 80%Z; split; [lia | reflexivity] |].
    constructor; [exists 150%Z; split; [lia | reflexivity] | constructor].
  - apply (grid_row_present flights 0); [discriminate |].
    pose proof (grid_range_ordered flights ltac:(discriminate)). lia.
Defined.

Lemma summary_ignores_default_estimate_witness :
  selected_total_estimate [sample_departure; sample_zero_pax] = 0%Z
  /\ exists row,
       In row (calculatePassengerGridData [sample_departure; sample_zero_pax])
       /\ row_time row = noon
       /\ row_cells row !! column_key 1 = Some 100%Z
       /\ (100 <= total row)%Z.
Proof.
  exact (summary_ignores_default_estimate [sample_departure; sample_zero_pax]
           1 sample_zero_pax "2024-01-01T12:00:00Z"
           sample_departure_missing eq_refl eq_refl ltac:(discriminate)
           eq_refl eq_refl).
Defined.

Lemma pending_edits_compose_witness :
  onCellValueChanged
    (onCellValueChanged ∅ (Some 7%Z) (Some "campaign_status") (Some "LIVE"))
    (Some 7%Z) (Some "campaign_status_comments") (Some "approved")
  = onCellValueChanged
      (onCellValueChanged ∅ (Some 7%Z) (Some "campaign_status_comments")
         (Some "approved"))
      (Some 7%Z) (Some "campaign_status") (Some "LIVE").
Proof.
  destruct (pending_edits_compose ∅ (Some 7%Z) (Some 7%Z)
              (Some "campaign_status") (Some "campaign_status_comments")
              (Some "LIVE") (Some "approved"))
    as [_ Hcomm].
  apply Hcomm. right. discriminate.
Defined.

Lemma pending_edit_recorded_witness :
  onCellValueChanged ∅ (Some 7%Z) (Some "") (Some "LIVE") = ∅
  /\ size (onCellValueChanged ∅ (Some 7%Z) (Some "campaign_status")
             (Some "LIVE")) = 1%nat.
Proof.
  split.
  - destruct (pending_edit_recorded ∅ (Some 7%Z) (Some "") (Some "LIVE"))
      as [Hguard _].
    apply Hguard. right. reflexivity.
  - destruct (pending_edit_recorded ∅ (Some 7%Z) (Some "campaign_status")
                (Some "LIVE")) as [_ Hrec].
    destruct (Hrec 7%Z "campaign_status" eq_refl eq_refl ltac:(discriminate))
      as [_ Hsize].
    exact Hsize.
Defined.

Lemma zero_estimate_uses_default_witness :
  pax_or_default sample_zero_pax = 100
  /\ calculatePassengerDistribution sample_zero_pax
     = calculatePassengerDistribution (with_pax sample_zero_pax (Some 100))
  /\ exists p, last (calculatePassengerDistribution sample_zero_pax) = Some p
               /\ time p = noon /\ passenger_count p = 100%Z.
Proof.
  destruct (zero_estimate_uses_default sample_zero_pax eq_refl)
    as (Hp & _ & Hsame & _ & Hanchor).
  split; [exact Hp |]. split; [exact Hsame |].
  destruct (Hanchor "2024-01-01T12:00:00Z" eq_refl ltac:(discriminate))
    as (_ & Hdep & _).
  destruct (Hdep eq_refl) as [Hlast _]. exact Hlast.
Defined.

End FurtherSamples.
